(** * nrtk: parameter sweeps over image perturbers

    A shallow embedding of the perturber factories of nrtk
    ([nrtk/impls/perturb_image_factory/generic/linspace_step.py]), of the
    helpers of its test-suite, and of the collaborators those files call.

    Conventions.
    - A Python call that may raise returns a [result]: [Ok v] or [Raise e].
    - Numbers are exact rationals ([Q]); Python's [==] on numbers is [Qeq].
      This reading serves where the number of values, their positions or
      their export matter. numpy computes in binary64: where a property
      depends on the computed values, [np.linspace64] and [thetas64] give the
      same expressions on primitive floats, rounded after every operation.
    - A [dict] with string keys is a [gmap string _]. *)

From Stdlib Require Import QArith Qround.
From Stdlib Require PrimFloat SpecFloat FloatOps FloatAxioms.
From stdpp Require Import base option list gmap strings pretty.

Local Open Scope string_scope.
Local Open Scope Z_scope.

(** ** Python exceptions and fallible calls *)

Module Py.

(** The scalars of a JSON-compatible configuration mapping: what
    [get_config] exports and [from_config] reads. *)
Inductive value : Type :=
| Str (s : string)
| Int (z : Z)
| Float (q : Q).

(** [str(v)], as an f-string formats a value; a rational prints as
    [numerator/denominator]. *)
Definition str (v : value) : string :=
  match v with
  | Str s => s
  | Int z => pretty z
  | Float q => pretty (Qnum q) +:+ "/" +:+ pretty (Zpos (Qden q))
  end.

Inductive exn : Type :=
| IndexError
| KeyError (key : value)
| ValueError (msg : string)
| TypeError (msg : string)
| NotImplementedError (msg : string).

Inductive result (A : Type) : Type :=
| Ok (a : A)
| Raise (e : exn).
Arguments Ok {A} a.
Arguments Raise {A} e.

Definition bind {A B : Type} (c : result A) (k : A -> result B) : result B :=
  match c with
  | Ok a => k a
  | Raise e => Raise e
  end.

(** [for x in xs: ys.append(f(x))], stopping at the first exception. *)
Fixpoint for_each {A B : Type} (f : A -> result B) (xs : list A) : result (list B) :=
  match xs with
  | [] => Ok []
  | x :: xs' => bind (f x) (fun y => bind (for_each f xs') (fun ys => Ok (y :: ys)))
  end.

End Py.

Import Py.

#[global] Instance result_ret : MRet result := @Ok.
#[global] Instance result_bind : MBind result := fun A B k c => Py.bind c k.
#[global] Instance result_fmap : FMap result :=
  fun A B f c => Py.bind c (fun a => Ok (f a)).

(** ** numpy *)

Module np.

(** The [i]-th sample of [np.linspace]: [i * step + start] with
    [step = (stop - start) / num]. *)
Definition sample (start stop : Q) (num : Z) (i : nat) : Q :=
  (inject_Z (Z.of_nat i) * ((stop - start) / inject_Z num) + start)%Q.

(** The message of the [ValueError] for a negative number of samples. *)
Definition negative_samples (num : Z) : string :=
  "Number of samples, " +:+ pretty num +:+ ", must be non-negative.".

(** [np.linspace(start, stop, num, endpoint=False).tolist()]: the samples
    [0 .. num-1]; a negative [num] is refused with a [ValueError]. *)
Definition linspace (start stop : Q) (num : Z) : result (list Q) :=
  if num <? 0 then Raise (ValueError (negative_samples num))
  else Ok (map (sample start stop num) (seq 0 (Z.to_nat num))).

(** The same routine in binary64, rounding after every operation as numpy
    does. [float(z)]: the integer rounded to the nearest float. *)
Definition float_of_Z (z : Z) : PrimFloat.float :=
  FloatOps.SF2Prim (SpecFloat.binary_normalize FloatOps.prec FloatOps.emax z 0 false).


(** The [i]-th sample. With [y = arange(0, num)], [delta = stop - start] and
    [step = delta / num], numpy computes [y * step + start], and
    [(y / num) * delta + start] when the step has underflowed to zero. *)
Definition sample64 (start stop : PrimFloat.float) (num : Z) (i : nat) : PrimFloat.float :=
  let delta := PrimFloat.sub stop start in
  let step := PrimFloat.div delta (float_of_Z num) in
  let y := float_of_Z (Z.of_nat i) in
  PrimFloat.add
    (if PrimFloat.eqb step PrimFloat.zero
     then PrimFloat.mul (PrimFloat.div y (float_of_Z num)) delta
     else PrimFloat.mul y step)
    start.

Definition linspace64 (start stop : PrimFloat.float) (num : Z)
    : result (list PrimFloat.float) :=
  if num <? 0 then Raise (ValueError (negative_samples num))
  else Ok (map (sample64 start stop num) (seq 0 (Z.to_nat num))).

End np.

(** ** Perturbers

    The interface [nrtk.interfaces.perturb_image.PerturbImage] is not among
    the sources; [DummyPerturber] of [tests/.../test_step.py] implements it,
    and the model follows that class: a constructor with keyword parameters
    that have defaults, which stores its arguments, and a [get_config] that
    returns them. *)

Module PerturbImage.

(** A perturber class as the factories use it: its [__name__], the module
    that declares it, and its keyword parameters with their defaults. *)
Record type : Type := {
  module_name : string;
  name : string;
  params : gmap string Q;
}.

(** An instance: its class and the arguments it was built with. *)
Record t : Type := {
  class_of : type;
  config : gmap string Q;
}.

(** [cls(key=value)], the keyword being [key]: the other parameters keep
    their defaults; a keyword the constructor does not declare is a
    [TypeError]. *)
Definition construct (cls : type) (key : string) (value : Q) : result t :=
  match params cls !! key with
  | Some _ => Ok {| class_of := cls; config := <[key := value]> (params cls) |}
  | None => Raise (TypeError "got an unexpected keyword argument")
  end.

Definition get_config (p : t) : gmap string Q := config p.

(** [class DummyPerturber(PerturbImage)] with [param_1: int = 1],
    [param_2: int = 2]. *)
Definition DummyPerturber : type := {|
  module_name := "tests.impls.perturb_image_factory.generic.test_step";
  name := "DummyPerturber";
  params := {[ "param_1" := 1%Q; "param_2" := 2%Q ]};
|}.

End PerturbImage.

(** ** The factory interface

    [nrtk.interfaces.perturb_image_factory.PerturbImageFactory], the base
    class of every factory. A subclass supplies the property [thetas]; the
    base class stores the perturber class and the name of the parameter that
    varies. A factory seen through its base class is a [PerturbImageFactory.t]. *)

Module PerturbImageFactory.

(** Modelled from the spec: the base class is not among the sources. A
    factory binds a perturber class and a [theta_key] to the value sequence
    its subclass produces (which may raise instead). *)
Record t : Type := {
  perturber : PerturbImage.type;
  theta_key : string;
  thetas : result (list Q);
}.

(** What a caller may pass as [perturber]: a class, or (by mistake) an
    instance of one or some other object. *)
Inductive perturber_arg : Type :=
| a_type (cls : PerturbImage.type)
| an_instance (p : PerturbImage.t)
| an_object (v : value).

(** Modelled from the spec: the base class is not among the sources.
    Construction fails with a [TypeError] if the perturber is an instance
    rather than a type (the message is the one [test_configuration_bounds]
    matches). *)
Definition init (perturber : perturber_arg) : result PerturbImage.type :=
  match perturber with
  | a_type cls => Ok cls
  | an_instance _ | an_object _ =>
      Raise (TypeError "Passed a perturber instance, expected type")
  end.

(** Modelled from the spec: [length()] is the number of values in the
    produced sequence. *)
Definition len (self : t) : result nat :=
  l ← thetas self; mret (length l).

(** Modelled from the spec: [get(index)] fails with an [IndexError] if
    [index] is negative or [>= length()]; otherwise it returns a newly
    constructed perturber whose argument [theta_key] is the [index]-th
    produced value. *)
Definition getitem (self : t) (idx : Z) : result PerturbImage.t :=
  l ← thetas self;
  if (idx <? 0) || (Z.of_nat (length l) <=? idx) then Raise IndexError
  else
    match l !! Z.to_nat idx with
    | Some theta => PerturbImage.construct (perturber self) (theta_key self) theta
    | None => Raise IndexError
    end.

(** Modelled from the spec: iteration is [get(0), get(1), ..., get(length()-1)]. *)
Definition iter (self : t) : result (list PerturbImage.t) :=
  l ← thetas self;
  for_each (PerturbImage.construct (perturber self) (theta_key self)) l.

(** Modelled from the spec: the base class exports the registered name of
    the perturber class and [theta_key]; a subclass adds its range. *)
Definition get_config (self : t) : gmap string value :=
  {[ "perturber" := Str (PerturbImage.name (perturber self));
     "theta_key" := Str (theta_key self) ]}.

End PerturbImageFactory.

(** ** smqtk_core.configuration.Configurable *)

Module Configurable.

(** A keyword argument of a constructor call: a configuration scalar, or a
    class (what [from_config] puts under ["perturber"]). *)
Inductive arg : Type :=
| Val (v : value)
| Cls (c : PerturbImage.type).

(** Reading an argument at its annotated type. The model's records are
    typed: an argument of another type is refused here with a [TypeError]. *)
Definition as_str (a : arg) : result string :=
  match a with
  | Val (Str s) => Ok s
  | _ => Raise (TypeError "expected str")
  end.

Definition as_float (a : arg) : result Q :=
  match a with
  | Val (Float q) => Ok q
  | Val (Int z) => Ok (inject_Z z)
  | _ => Raise (TypeError "expected float")
  end.

Definition as_int (a : arg) : result Z :=
  match a with
  | Val (Int z) => Ok z
  | _ => Raise (TypeError "expected int")
  end.

(** A class is a type; anything else under ["perturber"] is not. *)
Definition as_perturber (a : arg) : PerturbImageFactory.perturber_arg :=
  match a with
  | Cls c => PerturbImageFactory.a_type c
  | Val v => PerturbImageFactory.an_object v
  end.

(** A parameter without default that the call does not give. *)
Definition required (kwargs : gmap string arg) (k : string) : result arg :=
  match kwargs !! k with
  | Some a => Ok a
  | None => Raise (TypeError ("missing a required argument: " +:+ k))
  end.

End Configurable.

Module Import ConfigurableCall.

(** [Configurable.from_config] of smqtk_core (a library, not code of
    nrtk): it calls the constructor [init] with the entries of the mapping as
    keyword arguments; Python refuses a keyword the constructor does not
    declare. With [merge_default] smqtk first lays the entries over the
    default configuration, which holds every parameter of the constructor:
    its default, or [None] where it has none. The typed records of this model
    hold no [None]: the model follows the call on mappings that give every
    parameter without default, as every exported configuration does (there
    the flag changes nothing), and on any mapping without [merge_default]. *)
Definition from_config {A : Type} (declared : list string)
    (init : gmap string Configurable.arg -> result A)
    (config_dict : gmap string Configurable.arg) (merge_default : bool) : result A :=
  if decide (dom config_dict ⊆ list_to_set declared)
  then init config_dict
  else Raise (TypeError "got an unexpected keyword argument").

End ConfigurableCall.

(** ** LinSpacePerturbImageFactory (linspace_step.py) *)

Module LinSpacePerturbImageFactory.

Import Configurable.

Record t : Type := {
  perturber : PerturbImage.type;
  theta_key : string;
  start : Q;
  stop : Q;
  step : Z;
}.

(** [__init__(self, perturber, theta_key, start, stop, step=1)]. *)
Definition init (perturber : PerturbImageFactory.perturber_arg) (theta_key : string)
    (start stop : Q) (step : option Z) : result t :=
  cls ← PerturbImageFactory.init perturber;
  mret {| perturber := cls; theta_key := theta_key;
          start := start; stop := stop; step := default 1 step |}.

(** The property [thetas]. *)
Definition thetas (self : t) : result (list Q) :=
  if Qeq_bool (start self) (stop self) then Ok []
  else np.linspace (start self) (stop self) (step self).

(** The property [thetas] on binary64 numbers, with the values as numpy
    computes them; [==] is the comparison of floats. [thetas] above is the
    same body in exact arithmetic. *)
Definition thetas64 (start stop : PrimFloat.float) (step : Z)
    : result (list PrimFloat.float) :=
  if PrimFloat.eqb start stop then Ok []
  else np.linspace64 start stop step.

(** The factory as its base class sees it. *)
Definition base (self : t) : PerturbImageFactory.t := {|
  PerturbImageFactory.perturber := perturber self;
  PerturbImageFactory.theta_key := theta_key self;
  PerturbImageFactory.thetas := thetas self;
|}.

Definition get_config (self : t) : gmap string value :=
  let cfg := PerturbImageFactory.get_config (base self) in
  let cfg := <["perturber" := Str (PerturbImage.name (perturber self))]> cfg in
  let cfg := <["start" := Float (start self)]> cfg in
  let cfg := <["stop" := Float (stop self)]> cfg in
  let cfg := <["step" := Int (step self)]> cfg in
  cfg.

(** The constructor called with keyword arguments. *)
Definition init_kwargs (kwargs : gmap string arg) : result t :=
  perturber ← required kwargs "perturber";
  theta_key ← required kwargs "theta_key" ≫= as_str;
  start ← required kwargs "start" ≫= as_float;
  stop ← required kwargs "stop" ≫= as_float;
  step ← match kwargs !! "step" with
         | Some a => Some <$> as_int a
         | None => Ok None
         end;
  init (as_perturber perturber) theta_key start stop step.

(** [{pert_impl.__name__: pert_impl for pert_impl in perturber_impls}]: a
    later class replaces an earlier one of the same name. *)
Definition type_dict (perturber_impls : list PerturbImage.type) : gmap string PerturbImage.type :=
  foldl (fun d pert_impl => <[PerturbImage.name pert_impl := pert_impl]> d) ∅ perturber_impls.

(** [d[key]] on the dictionary of classes. *)
Definition type_dict_getitem (d : gmap string PerturbImage.type) (key : value)
    : result PerturbImage.type :=
  match key with
  | Str s => match d !! s with
             | Some cls => Ok cls
             | None => Raise (KeyError key)
             end
  | _ => Raise (KeyError key)
  end.

(** The class method [from_config]; [perturber_impls] is what
    [PerturbImage.get_impls()] returns. *)
Definition from_config (perturber_impls : list PerturbImage.type)
    (config_dict : gmap string value) (merge_default : bool) : result t :=
  let config_dict : gmap string arg := Val <$> config_dict in
  let type_dict := type_dict perturber_impls in
  name ← match config_dict !! "perturber" with
         | Some (Val v) => Ok v
         | _ => Raise (KeyError (Str "perturber"))
         end;
  cls ← type_dict_getitem type_dict name;
  let config_dict := <["perturber" := Cls cls]> config_dict in
  ConfigurableCall.from_config ["perturber"; "theta_key"; "start"; "stop"; "step"]
    init_kwargs config_dict merge_default.

End LinSpacePerturbImageFactory.

(** ** StepPerturbImageFactory

    Modelled from the spec: [nrtk/impls/perturb_image_factory/generic/step.py]
    is not among the sources; only its tests are. Given [(start, stop,
    step)], the Step variant returns the arithmetic sequence [start,
    start+step, ...] while strictly less than [stop] (or greater than, if
    [step] is negative): a half-open arithmetic range. A zero step that would
    never reach [stop] has no finite sequence and is refused. *)

Module StepPerturbImageFactory.

Record t : Type := {
  perturber : PerturbImage.type;
  theta_key : string;
  start : Q;
  stop : Q;
  step : Q;
}.

(** Modelled from the spec: [step.py] is not among the sources. The values
    [start + i * step] that lie before [stop] in the direction of [step]. *)
Definition thetas (self : t) : result (list Q) :=
  if Qeq_bool (step self) 0 then
    if Qlt_le_dec (start self) (stop self)
    then Raise (ValueError "step must not be zero")
    else Ok []
  else
    let n := Z.to_nat (Qceiling ((stop self - start self) / step self)) in
    Ok (map (fun i : nat => (start self + inject_Z (Z.of_nat i) * step self)%Q)
            (seq 0 n)).

(** The factory as its base class sees it. *)
Definition base (self : t) : PerturbImageFactory.t := {|
  PerturbImageFactory.perturber := perturber self;
  PerturbImageFactory.theta_key := theta_key self;
  PerturbImageFactory.thetas := thetas self;
|}.

(** Modelled from the spec: the export of [step.py] is not among the
    sources. The mapping holds the registered name of the perturber class,
    [theta_key] and the range. *)
Definition get_config (self : t) : gmap string value :=
  let cfg := PerturbImageFactory.get_config (base self) in
  let cfg := <["start" := Float (start self)]> cfg in
  let cfg := <["stop" := Float (stop self)]> cfg in
  let cfg := <["step" := Float (step self)]> cfg in
  cfg.

(** The constructor called with keyword arguments; [step] defaults to 1. *)
Definition init_kwargs (kwargs : gmap string Configurable.arg) : result t :=
  perturber ← Configurable.required kwargs "perturber";
  theta_key ← Configurable.required kwargs "theta_key" ≫= Configurable.as_str;
  start ← Configurable.required kwargs "start" ≫= Configurable.as_float;
  stop ← Configurable.required kwargs "stop" ≫= Configurable.as_float;
  step ← match kwargs !! "step" with
         | Some a => Configurable.as_float a
         | None => Ok 1%Q
         end;
  cls ← PerturbImageFactory.init (Configurable.as_perturber perturber);
  mret {| perturber := cls; theta_key := theta_key;
          start := start; stop := stop; step := step |}.

(** The message for a perturber name that is not registered. *)
Definition not_valid (name : value) : string :=
  str name +:+ " is not a valid perturber.".

(** Modelled from the spec: the import of [step.py] is not among the
    sources. An unknown perturber name fails with a [ValueError] that
    identifies the offending name as not a valid perturber (the message
    [test_hyrdation_bounds] matches); a registered one is resolved to its
    class and the factory is constructed. *)
Definition from_config (perturber_impls : list PerturbImage.type)
    (config_dict : gmap string value) (merge_default : bool) : result t :=
  let type_dict : gmap string PerturbImage.type :=
    foldl (fun d pert_impl => <[PerturbImage.name pert_impl := pert_impl]> d)
          ∅ perturber_impls in
  match config_dict !! "perturber" with
  | None => Raise (KeyError (Str "perturber"))
  | Some name =>
      match (if name is Str s then type_dict !! s else None) with
      | None => Raise (ValueError (not_valid name))
      | Some cls =>
          ConfigurableCall.from_config
            ["perturber"; "theta_key"; "start"; "stop"; "step"] init_kwargs
            (<["perturber" := Configurable.Cls cls]> (Configurable.Val <$> config_dict))
            merge_default
      end
  end.

End StepPerturbImageFactory.

(** ** tests/impls/gen_object_detector_blackbox_response/test_generator_utils.py *)

Module test_generator_utils.

(** [for factory in perturber_factories: num_perturber_combos *= len(factory)]. *)
Fixpoint count_loop (num_perturber_combos : nat)
    (perturber_factories : list PerturbImageFactory.t) : result nat :=
  match perturber_factories with
  | [] => Ok num_perturber_combos
  | factory :: rest =>
      n ← PerturbImageFactory.len factory;
      count_loop (num_perturber_combos * n) rest
  end.

(** The number of combinations [generator_assertions] computes from the
    factories: it starts from [1 if len(perturber_factories) else 0]. *)
Definition num_perturber_combos (perturber_factories : list PerturbImageFactory.t)
    : result nat :=
  count_loop (if (length perturber_factories =? 0)%nat then 0%nat else 1%nat)
             perturber_factories.

(** The three assertions of [generator_assertions] on what the generator
    returned; [n_data] is [len(generator)], the size of the dataset. *)
Definition generator_assertions {S : Type} (curve : list S) (full_scores : list (list S))
    (perturber_factories : list PerturbImageFactory.t) (n_data : nat) : result bool :=
  num ← num_perturber_combos perturber_factories;
  mret (bool_decide (length curve = num)
        && bool_decide (length full_scores = num)
        && forallb (fun scores => bool_decide (length scores = n_data)) full_scores).

End test_generator_utils.

(** ** The blackbox response generator

    Modelled from the spec: the generator
    ([nrtk.interfaces.gen_object_detector_blackbox_response]) and the
    Cartesian product it enumerates are not among the sources. The detector,
    the scorer, the aggregation rule and [perturb] are the opaque
    capabilities of the spec; each may raise, and a failure aborts the sweep. *)

Module GenerateObjectDetectorBlackboxResponse.

(** Modelled from the spec: the Cartesian product engine is not among the
    sources. The index space of the factories, row-major: the last index
    varies fastest; the empty collection has the one trivial combination. *)
Fixpoint index_product (lengths : list nat) : list (list nat) :=
  match lengths with
  | [] => [[]]
  | L :: rest => flat_map (fun i => map (cons i) (index_product rest)) (seq 0 L)
  end.

(** Modelled from the spec: the batching of the generator is not among the
    sources. Consecutive batches of at most [batch_size] items, the last one
    possibly smaller. At most [fuel] batches are cut; [length xs] of them
    always suffice. *)
Fixpoint batches_upto {A : Type} (fuel batch_size : nat) (xs : list A) : list (list A) :=
  match fuel, xs with
  | O, _ | _, [] => []
  | S fuel', _ => take batch_size xs :: batches_upto fuel' batch_size (drop batch_size xs)
  end.

(** Modelled from the spec: the partition of the perturbed images into
    consecutive batches. *)
Definition batches {A : Type} (batch_size : nat) (xs : list A) : list (list A) :=
  batches_upto (length xs) batch_size xs.

Section generator.
Context {image truth dets score_t : Type}.
Variable perturb : PerturbImage.t -> image -> result image.
Variable detect : list image -> result (list dets).
Variable score : truth -> dets -> result score_t.
Variable aggregate : list score_t -> score_t.

(** Modelled from the spec: a combination materializes one perturber per
    factory, [factory_k.get(i_k)]. *)
Definition combination (factories : list PerturbImageFactory.t) (idxs : list nat)
    : result (list PerturbImage.t) :=
  for_each (fun fi => PerturbImageFactory.getitem (fst fi) (Z.of_nat (snd fi)))
           (zip factories idxs).

(** Modelled from the spec: all perturbers of a combination applied to one
    image, factory 0 first. *)
Fixpoint apply_all (perturbers : list PerturbImage.t) (img : image) : result image :=
  match perturbers with
  | [] => Ok img
  | p :: rest => img' ← perturb p img; apply_all rest img'
  end.

(** Modelled from the spec: steps 1 to 4 of the generator for one
    combination (perturb every image, detect in batches, score every item,
    aggregate): the aggregate and the row of per-item scores. *)
Definition respond (perturbers : list PerturbImage.t)
    (dataset : list (image * truth)) (batch_size : nat)
    : result (score_t * list score_t) :=
  perturbed ← for_each (fun item => apply_all perturbers (fst item)) dataset;
  per_batch ← for_each detect (batches batch_size perturbed);
  let detections := concat per_batch in
  scores ← for_each (fun gd => score (snd (fst gd)) (snd gd)) (zip dataset detections);
  mret (aggregate scores, scores).

(** Modelled from the spec: the generator is not among the sources. The
    sweep over all combinations, in enumeration order; zero factories is the
    documented degenerate case: no combination, both outputs empty. *)
Definition generate (factories : list PerturbImageFactory.t)
    (dataset : list (image * truth)) (batch_size : nat) (verbose : bool)
    : result (list score_t * list (list score_t)) :=
  match factories with
  | [] => Ok ([], [])
  | _ =>
      lengths ← for_each PerturbImageFactory.len factories;
      rows ← for_each (fun idxs =>
                perturbers ← combination factories idxs;
                respond perturbers dataset batch_size)
              (index_product lengths);
      mret (map fst rows, map snd rows)
  end.
End generator.

End GenerateObjectDetectorBlackboxResponse.

(** ** The optical-transfer-function perturber

    Modelled from the spec: [nrtk/impls/perturb_image/pybsm/jitter_otf_perturber.py]
    is not among the sources. A perturber built with a sensor and a scenario
    requires the ground-sample distance of the image under ["img_gsd"] in
    [additional_params]; built without them it runs on defaults and requires
    no metadata. The simulations are opaque. *)

Module JitterOTFPerturber.

(** Modelled from the spec: the error message names the missing key (the
    text is the one [test_provided_additional_params] matches). *)
Definition missing_message (key : string) : string :=
  "'" +:+ key +:+ "' must be present in image metadata".

Section otf.
Context {image sensor scenario : Type}.
Variable simulate : sensor -> scenario -> Q -> image -> image.
Variable simulate_default : image -> image.

(** Modelled from the spec: the perturber, built with or without a sensor
    and a scenario. *)
Record t : Type := {
  sensor_of : option sensor;
  scenario_of : option scenario;
}.

(** Modelled from the spec: [perturb(image, additional_params)]; a
    required entry that is absent is a [ValueError] naming the key. *)
Definition perturb (self : t) (img : image) (additional_params : gmap string Q)
    : result image :=
  match sensor_of self, scenario_of self with
  | Some sn, Some sc =>
      match additional_params !! "img_gsd" with
      | None => Raise (ValueError (missing_message "img_gsd"))
      | Some gsd => Ok (simulate sn sc gsd img)
      end
  | _, _ => Ok (simulate_default img)
  end.
End otf.

End JitterOTFPerturber.

(** ** Python's random module

    The generator behind [random.randrange] and [random.random] is global
    state. Its state is modelled as the raw draws still to come, so that a
    statement over every state covers every outcome of a call. *)

Module random.

Definition state : Type := nat -> N.

(** The next raw draw and the state after it. *)
Definition next (s : state) : N * state := (s 0%nat, fun i => s (S i)).

(** [random.randrange(start, stop)] ([random.randrange(stop)] is the call
    with [start = 0]): an integer of [[start, stop)]; an empty range is a
    [ValueError]. *)
Definition randrange (start stop : Z) (s : state) : result (Z * state) :=
  if stop <=? start then Raise (ValueError "empty range for randrange()")
  else Ok (start + Z.of_N (next s).1 mod (stop - start), (next s).2).

(** [random.random()]: a multiple of [2^-53] in [[0, 1)]. *)
Definition random (s : state) : Q * state :=
  (Z.of_N (next s).1 mod 2 ^ 53 # 2 ^ 53, (next s).2).

End random.

(** ** smqtk_image_io.AxisAlignedBoundingBox (a library, not code of nrtk) *)

Module AxisAlignedBoundingBox.

Record t : Type := {
  min_vertex : Z * Z;
  max_vertex : Z * Z;
}.

(** The constructor refuses a maximum vertex that is not [>=] the minimum
    vertex in every coordinate. *)
Definition init (min_vertex max_vertex : Z * Z) : result t :=
  if (min_vertex.1 <=? max_vertex.1) && (min_vertex.2 <=? max_vertex.2)
  then Ok {| min_vertex := min_vertex; max_vertex := max_vertex |}
  else Raise (ValueError "The maximum vertex was not strictly >= the minimum vertex.").

End AxisAlignedBoundingBox.

(** ** gen_rand_dets (test_generator_utils.py) *)

Module rand_dets.

(** A detection: a box and the scores by class label. *)
Definition detection : Type := AxisAlignedBoundingBox.t * gmap string Q.

(** The inner function [_get_rand_bbox]: two draws for x, two for y, and
    the box between their minima and maxima. *)
Definition _get_rand_bbox (im_shape : Z * Z) (s : random.state)
    : result (AxisAlignedBoundingBox.t * random.state) :=
  '(x0, s) ← random.randrange 0 im_shape.1 s;
  '(x1, s) ← random.randrange 0 im_shape.1 s;
  '(y0, s) ← random.randrange 0 im_shape.2 s;
  '(y1, s) ← random.randrange 0 im_shape.2 s;
  box ← AxisAlignedBoundingBox.init (Z.min x0 x1, Z.min y0 y1) (Z.max x0 x1, Z.max y0 y1);
  mret (box, s).

(** The list comprehension, one detection per turn: the box, then the score. *)
Fixpoint gen_loop (n : nat) (im_shape : Z * Z) (s : random.state)
    : result (list detection * random.state) :=
  match n with
  | O => Ok ([], s)
  | S n' =>
      '(box, s) ← _get_rand_bbox im_shape s;
      let score := random.random s in
      '(rest, s') ← gen_loop n' im_shape score.2;
      mret ((box, {[ "class" := score.1 ]}) :: rest, s')
  end.

(** [gen_rand_dets(im_shape, n_dets)]; [range(n_dets)] is empty for a
    negative [n_dets]. *)
Definition gen_rand_dets (im_shape : Z * Z) (n_dets : Z) (s : random.state)
    : result (list detection * random.state) :=
  gen_loop (Z.to_nat n_dets) im_shape s.

End rand_dets.

(** ** DummyPerturber (test_step.py) *)

Module test_step.

(** [class DummyPerturber(PerturbImage)]: it stores [param_1] and [param_2]. *)
Record DummyPerturber : Type := {
  param_1 : Q;
  param_2 : Q;
}.

(** [__init__(self, param_1: int = 1, param_2: int = 2)]. *)
Definition init (param_1 param_2 : option Q) : DummyPerturber :=
  {| param_1 := default 1%Q param_1; param_2 := default 2%Q param_2 |}.

(** The constructor called with keyword arguments: a keyword it does not
    declare is a [TypeError]. *)
Definition init_kwargs (kwargs : gmap string Q) : result DummyPerturber :=
  if decide (dom kwargs ⊆ {[ "param_1"; "param_2" ]})
  then Ok (init (kwargs !! "param_1") (kwargs !! "param_2"))
  else Raise (TypeError "got an unexpected keyword argument").

(** [perturb] returns [np.copy(image)]: an array equal to the input. *)
Definition perturb {image : Type} (self : DummyPerturber) (img : image) : image := img.

Definition get_config (self : DummyPerturber) : gmap string Q :=
  {[ "param_1" := param_1 self; "param_2" := param_2 self ]}.

End test_step.

(** * Properties *)

(** ** Vocabulary of the specification *)

Module Spec.

(** The product of the lengths. *)
Definition product (lengths : list nat) : nat := foldr Nat.mul 1%nat lengths.

(** A detector answers with one entry per image of the batch. *)
Definition per_image {image dets : Type} (detect : list image -> result (list dets)) : Prop :=
  forall (batch : list image) (ds : list dets),
    detect batch = Ok ds -> length ds = length batch.

(** A factory that can be swept: its values are defined and the perturber
    class declares [theta_key]. *)
Definition sweepable (self : PerturbImageFactory.t) : Prop :=
  (exists l, PerturbImageFactory.thetas self = Ok l)
  /\ is_Some (PerturbImage.params (PerturbImageFactory.perturber self)
               !! PerturbImageFactory.theta_key self).

(** A detection that fits an image of shape [im_shape]: a box with ordered
    corners inside the image, and one score, of [[0, 1)], under ["class"]. *)
Definition fits_image (im_shape : Z * Z) (d : rand_dets.detection) : Prop :=
  let lo := AxisAlignedBoundingBox.min_vertex d.1 in
  let hi := AxisAlignedBoundingBox.max_vertex d.1 in
  (0 <= lo.1 /\ lo.1 <= hi.1 /\ hi.1 < im_shape.1)
  /\ (0 <= lo.2 /\ lo.2 <= hi.2 /\ hi.2 < im_shape.2)
  /\ exists c : Q, d.2 = {[ "class" := c ]} /\ (0 <= c)%Q /\ (c < 1)%Q.

(** A configuration scalar that is the number [q]: a float, or an int of
    that value. *)
Definition number_is (v : value) (q : Q) : Prop :=
  v = Float q \/ exists z : Z, v = Int z /\ q = inject_Z z.

(** The length of a factory, 0 standing in where [len] raises. *)
Definition len_or_0 (f : PerturbImageFactory.t) : nat :=
  match PerturbImageFactory.len f with
  | Ok n => n
  | Raise _ => 0%nat
  end.

(** The number of values a LinSpace factory produces for a count [>= 0]. *)
Definition linspace_count (self : LinSpacePerturbImageFactory.t) : nat :=
  if Qeq_bool (LinSpacePerturbImageFactory.start self) (LinSpacePerturbImageFactory.stop self)
  then 0%nat
  else Z.to_nat (LinSpacePerturbImageFactory.step self).

End Spec.

(** ** The inputs of the scenarios and of the tests *)

Module Scenarios.

(** [LinSpace(start=1, stop=6, count=2)] bound to ["param_1"] of the dummy
    perturber. *)
Definition linspace_1_6_2 : LinSpacePerturbImageFactory.t := {|
  LinSpacePerturbImageFactory.perturber := PerturbImage.DummyPerturber;
  LinSpacePerturbImageFactory.theta_key := "param_1";
  LinSpacePerturbImageFactory.start := 1;
  LinSpacePerturbImageFactory.stop := 6;
  LinSpacePerturbImageFactory.step := 2;
|}.

(** The same range walked downwards, and with a negative count. *)
Definition linspace_6_1_2 : LinSpacePerturbImageFactory.t := {|
  LinSpacePerturbImageFactory.perturber := PerturbImage.DummyPerturber;
  LinSpacePerturbImageFactory.theta_key := "param_1";
  LinSpacePerturbImageFactory.start := 6;
  LinSpacePerturbImageFactory.stop := 1;
  LinSpacePerturbImageFactory.step := 2;
|}.

Definition linspace_1_6_neg : LinSpacePerturbImageFactory.t := {|
  LinSpacePerturbImageFactory.perturber := PerturbImage.DummyPerturber;
  LinSpacePerturbImageFactory.theta_key := "param_1";
  LinSpacePerturbImageFactory.start := 1;
  LinSpacePerturbImageFactory.stop := 6;
  LinSpacePerturbImageFactory.step := -1;
|}.

(** [(DummyPerturber, "param_1", 4, 4, 1)] of [test_iteration] and
    [test_indexing]: the empty range. *)
Definition linspace_4_4_1 : LinSpacePerturbImageFactory.t := {|
  LinSpacePerturbImageFactory.perturber := PerturbImage.DummyPerturber;
  LinSpacePerturbImageFactory.theta_key := "param_1";
  LinSpacePerturbImageFactory.start := 4;
  LinSpacePerturbImageFactory.stop := 4;
  LinSpacePerturbImageFactory.step := 1;
|}.

Definition step_4_4_1 : StepPerturbImageFactory.t := {|
  StepPerturbImageFactory.perturber := PerturbImage.DummyPerturber;
  StepPerturbImageFactory.theta_key := "param_1";
  StepPerturbImageFactory.start := 4;
  StepPerturbImageFactory.stop := 4;
  StepPerturbImageFactory.step := 1;
|}.

(** [(DummyPerturber, "param_1", 1, 6, 2)] of [test_indexing]. *)
Definition step_1_6_2 : StepPerturbImageFactory.t := {|
  StepPerturbImageFactory.perturber := PerturbImage.DummyPerturber;
  StepPerturbImageFactory.theta_key := "param_1";
  StepPerturbImageFactory.start := 1;
  StepPerturbImageFactory.stop := 6;
  StepPerturbImageFactory.step := 2;
|}.

(** The contents of a configuration that names no registered perturber
    (as [nrtk_bad_config.json] of [test_hyrdation_bounds] does). *)
Definition bad_config : gmap string value :=
  {[ "perturber" := Str "not a perturber";
     "theta_key" := Str "param_1";
     "start" := Int 1;
     "stop" := Int 5;
     "step" := Int 2 ]}.

(** A second class that is also called [DummyPerturber], declared in
    another module. *)
Definition OtherDummyPerturber : PerturbImage.type := {|
  PerturbImage.module_name := "elsewhere";
  PerturbImage.name := "DummyPerturber";
  PerturbImage.params := {[ "param_1" := 0%Q ]};
|}.

(** A registered class of another name. *)
Definition BlurPerturber : PerturbImage.type := {|
  PerturbImage.module_name := "nrtk.impls.perturb_image.generic.cv2.blur";
  PerturbImage.name := "AverageBlurPerturber";
  PerturbImage.params := {[ "ksize" := 1%Q ]};
|}.

(** Two factories of lengths 3 and 2. *)
Definition factories_3_2 : list PerturbImageFactory.t :=
  [StepPerturbImageFactory.base step_1_6_2; LinSpacePerturbImageFactory.base linspace_1_6_2].

(** Stand-ins for the opaque capabilities: an image is a number, a
    perturber adds its ["param_1"], the detector reports each image as it
    is, the score is the distance to the ground truth, the aggregate the sum. *)
Definition toy_perturb (p : PerturbImage.t) (img : Q) : result Q :=
  Ok (img + default 0%Q (PerturbImage.get_config p !! "param_1"))%Q.

Definition toy_detect (batch : list Q) : result (list Q) := Ok batch.

Definition toy_score (truth dets : Q) : result Q := Ok (dets - truth)%Q.

Definition toy_aggregate (scores : list Q) : Q := foldr Qplus 0%Q scores.

Definition toy_dataset : list (Q * Q) := [(0, 0); (10, 10); (20, 20)]%Q.

(** The sweep of the two factories over the toy dataset, in batches of two. *)
Definition toy_sweep : result (list Q * list (list Q)) :=
  GenerateObjectDetectorBlackboxResponse.generate
    toy_perturb toy_detect toy_score toy_aggregate factories_3_2 toy_dataset 2 false.

(** A configuration as read from JSON, with integers for the range. *)
Definition json_config : gmap string value :=
  {[ "perturber" := Str "DummyPerturber";
     "theta_key" := Str "param_1";
     "start" := Int 1;
     "stop" := Int 6;
     "step" := Int 2 ]}.

(** [linspace_1_6_2] bound to the other class called [DummyPerturber]. *)
Definition linspace_1_6_2_other : LinSpacePerturbImageFactory.t := {|
  LinSpacePerturbImageFactory.perturber := OtherDummyPerturber;
  LinSpacePerturbImageFactory.theta_key := "param_1";
  LinSpacePerturbImageFactory.start := 1;
  LinSpacePerturbImageFactory.stop := 6;
  LinSpacePerturbImageFactory.step := 2;
|}.

(** A raw stream for the random generator: 7, 8, 9, ... *)
Definition counting_stream : random.state := fun i => N.of_nat (7 + i).

End Scenarios.

(** ** numpy's linspace *)

Module LinspaceFacts.

Import PrimFloat SpecFloat FloatOps FloatAxioms.

Lemma linspace_ok start stop num :
  0 <= num ->
  np.linspace start stop num = Ok (map (np.sample start stop num) (seq 0 (Z.to_nat num))).
Proof.
  intros H. unfold np.linspace.
  destruct (Z.ltb_spec num 0); [lia | reflexivity].
Qed.

Lemma linspace_negative start stop num :
  num < 0 ->
  np.linspace start stop num = Raise (ValueError (np.negative_samples num)).
Proof.
  intros H. unfold np.linspace.
  destruct (Z.ltb_spec num 0); [reflexivity | lia].
Qed.







End LinspaceFacts.

(** ** The LinSpace factory *)

Module LinSpaceFacts.

Import LinSpacePerturbImageFactory LinspaceFacts.
Import PrimFloat.

Lemma thetas_equal (self : t) :
  (start self == stop self)%Q -> thetas self = Ok [].
Proof.
  intros He. unfold thetas.
  apply Qeq_bool_iff in He. rewrite He. reflexivity.
Qed.


(** The binary64 reading and the exact reading of [thetas] agree on the
    guard, on the error and on the number of values. *)
Lemma thetas64_shape (self : t) (a b : float) :
  (a =? b)%float = Qeq_bool (start self) (stop self) ->
  length <$> thetas64 a b (step self) = length <$> thetas self.
Proof.
  intros H. unfold thetas64, thetas. rewrite H.
  destruct (Qeq_bool (start self) (stop self)); [reflexivity|].
  unfold np.linspace64, np.linspace.
  destruct (step self <? 0); [reflexivity|].
  cbn. by rewrite !length_map.
Qed.




(** C5. If [start == stop] the produced sequence is empty whatever the
    count, and the factory has length 0: for the LinSpace factory of the
    sources, and for the Step factory as the specification describes it. *)
Theorem thetas_empty_when_start_is_stop
    (lin : LinSpacePerturbImageFactory.t) (stp : StepPerturbImageFactory.t) :
  ((start lin == stop lin)%Q ->
   thetas lin = Ok [] /\ PerturbImageFactory.len (base lin) = Ok 0%nat)
  /\ ((StepPerturbImageFactory.start stp == StepPerturbImageFactory.stop stp)%Q ->
      StepPerturbImageFactory.thetas stp = Ok []
      /\ PerturbImageFactory.len (StepPerturbImageFactory.base stp) = Ok 0%nat).
Proof.
  split.
  - intros He. unfold PerturbImageFactory.len. simpl.
    rewrite (thetas_equal lin He). split; reflexivity.
  - intros He.
    assert (StepPerturbImageFactory.thetas stp = Ok []) as Hs.
    { unfold StepPerturbImageFactory.thetas.
      destruct (Qeq_bool (StepPerturbImageFactory.step stp) 0).
      - destruct (Qlt_le_dec _ _) as [Hlt|_]; [|reflexivity].
        rewrite He in Hlt. exfalso. exact (Qlt_irrefl _ Hlt).
      - assert ((StepPerturbImageFactory.stop stp - StepPerturbImageFactory.start stp)
                / StepPerturbImageFactory.step stp == 0)%Q as Hz
          by (rewrite He; unfold Qdiv; ring).
        rewrite Hz. reflexivity. }
    unfold PerturbImageFactory.len. simpl. rewrite Hs. split; reflexivity.
Qed.

(** The theorem at [(4, 4, 1)], the empty range of [test_iteration]. *)
Lemma thetas_empty_when_start_is_stop_witness :
  (thetas Scenarios.linspace_4_4_1 = Ok []
   /\ PerturbImageFactory.len (base Scenarios.linspace_4_4_1) = Ok 0%nat)
  /\ (StepPerturbImageFactory.thetas Scenarios.step_4_4_1 = Ok []
      /\ PerturbImageFactory.len (StepPerturbImageFactory.base Scenarios.step_4_4_1) = Ok 0%nat).
Proof.
  destruct (thetas_empty_when_start_is_stop Scenarios.linspace_4_4_1 Scenarios.step_4_4_1)
    as [Hlin Hstp].
  split; [apply Hlin | apply Hstp]; reflexivity.
Defined.

End LinSpaceFacts.

(** ** Fallible calls *)

Module PyFacts.

Lemma bind_Ok {A B : Type} (c : result A) (k : A -> result B) (b : B) :
  c ≫= k = Ok b <-> exists a, c = Ok a /\ k a = Ok b.
Proof.
  split.
  - destruct c as [a|e]; [intros H; by exists a | discriminate].
  - intros (a & -> & Hk). exact Hk.
Qed.

Lemma fmap_Ok {A B : Type} (f : A -> B) (c : result A) (b : B) :
  f <$> c = Ok b <-> exists a, c = Ok a /\ b = f a.
Proof.
  split.
  - destruct c as [a|e]; [intros [= <-]; by exists a | discriminate].
  - intros (a & -> & ->). reflexivity.
Qed.

(** A loop that ends normally ran its body on every item, in order. *)
Lemma for_each_Ok {A B : Type} (f : A -> result B) (xs : list A) (ys : list B) :
  for_each f xs = Ok ys <-> Forall2 (fun x y => f x = Ok y) xs ys.
Proof.
  revert ys. induction xs as [|x xs IH]; intros ys; simpl.
  - split; [intros [= <-]; constructor | by inversion 1].
  - split.
    + destruct (f x) as [y|e] eqn:Hx; [simpl | discriminate].
      destruct (for_each f xs) as [ys'|e] eqn:Hxs; [simpl | discriminate].
      intros [= <-]. constructor; [exact Hx | by apply IH].
    + inversion 1 as [|? y ? ys' Hx Hxs]; subst.
      rewrite Hx. simpl. apply IH in Hxs. rewrite Hxs. reflexivity.
Qed.

Lemma for_each_length {A B : Type} (f : A -> result B) (xs : list A) (ys : list B) :
  for_each f xs = Ok ys -> length ys = length xs.
Proof. intros H. apply for_each_Ok in H. symmetry. exact (Forall2_length _ _ _ H). Qed.

(** A loop whose body cannot fail ends normally. *)
Lemma for_each_total {A B : Type} (f : A -> result B) (xs : list A) :
  Forall (fun x => exists y, f x = Ok y) xs -> exists ys, for_each f xs = Ok ys.
Proof.
  induction 1 as [|x xs [y Hy] _ [ys Hys]]; simpl.
  - by exists [].
  - exists (y :: ys). rewrite Hy. simpl. rewrite Hys. reflexivity.
Qed.

End PyFacts.

(** Splits a hypothesis [x ← c; k = Ok r] into the steps that succeeded. *)
Ltac bind_inv H :=
  repeat match type of H with
  | _ ≫= _ = Ok _ =>
      let a := fresh "a" in
      let Ha := fresh "H" a in
      apply PyFacts.bind_Ok in H as (a & Ha & H)
  end.

(** ** Counting and enumerating combinations *)

Module CombinationFacts.

Import test_generator_utils GenerateObjectDetectorBlackboxResponse PyFacts.

Lemma count_loop_product (fs : list PerturbImageFactory.t) (lengths : list nat) :
  Forall2 (fun f L => PerturbImageFactory.len f = Ok L) fs lengths ->
  forall num : nat, count_loop num fs = Ok (num * Spec.product lengths)%nat.
Proof.
  induction 1 as [|f L fs lengths Hf _ IH]; intros num; simpl.
  - f_equal. lia.
  - rewrite Hf. simpl. rewrite IH. f_equal. lia.
Qed.

Lemma index_product_length (lengths : list nat) :
  length (index_product lengths) = Spec.product lengths.
Proof.
  induction lengths as [|L lengths IH]; simpl; [reflexivity|].
  rewrite <- IH. generalize (index_product lengths) as rest. intros rest.
  generalize 0%nat as a.
  induction L as [|L IHL]; intros a; simpl; [reflexivity|].
  rewrite length_app, length_map, IHL. reflexivity.
Qed.

(** The count from the lengths, for use in other proofs. *)
Lemma count_product_of_lengths
    (perturber_factories : list PerturbImageFactory.t) (lengths : list nat) :
  Forall2 (fun f L => PerturbImageFactory.len f = Ok L) perturber_factories lengths ->
  num_perturber_combos perturber_factories
  = Ok (match perturber_factories with
        | [] => 0%nat
        | _ :: _ => Spec.product lengths
        end).
Proof.
  intros Hlen. unfold num_perturber_combos.
  rewrite (count_loop_product _ _ Hlen).
  destruct perturber_factories; simpl; f_equal; lia.
Qed.

(** C1 (as amended). For [n >= 1] factories of lengths [L_0 .. L_{n-1}] the
    number of combinations is the product of the [L_i]; for [n = 0] it is 0:
    the count starts from 1 only when there is a factory. *)
Theorem num_perturber_combos_product
    (perturber_factories : list PerturbImageFactory.t) (lengths : list nat) :
  Forall2 (fun f L => PerturbImageFactory.len f = Ok L) perturber_factories lengths ->
  num_perturber_combos perturber_factories
  = Ok (match perturber_factories with
        | [] => 0%nat
        | _ :: _ => Spec.product lengths
        end).
Proof.
  intros Hlen. unfold num_perturber_combos.
  rewrite (count_loop_product _ _ Hlen).
  destruct perturber_factories; simpl; f_equal; lia.
Qed.

(** The theorem at two factories of lengths 3 and 2: six combinations. *)
Lemma num_perturber_combos_product_witness :
  num_perturber_combos Scenarios.factories_3_2 = Ok 6%nat.
Proof.
  apply (num_perturber_combos_product Scenarios.factories_3_2 [3%nat; 2%nat]).
  repeat constructor.
Defined.

(** C1 as the specification words it fails on the code: with no factory
    the helper counts 0 combinations, not the empty product 1. *)
Lemma num_perturber_combos_empty :
  num_perturber_combos [] = Ok 0%nat
  /\ Spec.product (@nil nat) = 1%nat
  /\ num_perturber_combos [] <> Ok (Spec.product []).
Proof. repeat split. discriminate. Qed.

End CombinationFacts.

(** ** The blackbox response generator *)

Module GeneratorFacts.

Import test_generator_utils GenerateObjectDetectorBlackboxResponse PyFacts CombinationFacts.

(** Cutting into batches loses, repeats and reorders nothing. *)
Lemma batches_upto_concat {A : Type} (batch_size fuel : nat) (xs : list A) :
  (0 < batch_size)%nat -> (length xs <= fuel)%nat ->
  concat (batches_upto fuel batch_size xs) = xs.
Proof.
  intros Hb. revert xs. induction fuel as [|fuel IH]; intros xs Hfuel.
  - destruct xs; [reflexivity | simpl in Hfuel; lia].
  - destruct xs as [|x xs]; [reflexivity|].
    change (batches_upto (S fuel) batch_size (x :: xs))
      with (take batch_size (x :: xs)
            :: batches_upto fuel batch_size (drop batch_size (x :: xs))).
    simpl concat. rewrite IH.
    + apply take_drop.
    + rewrite length_drop. simpl in *. lia.
Qed.

Lemma batches_concat {A : Type} (batch_size : nat) (xs : list A) :
  (0 < batch_size)%nat -> concat (batches batch_size xs) = xs.
Proof. intros Hb. apply batches_upto_concat; [exact Hb | reflexivity]. Qed.

(** No batch is larger than [batch_size], and none is empty. *)
Lemma batches_upto_bounded {A : Type} (batch_size fuel : nat) (xs : list A) :
  (0 < batch_size)%nat ->
  Forall (fun b => (0 < length b <= batch_size)%nat) (batches_upto fuel batch_size xs).
Proof.
  intros Hb. revert xs. induction fuel as [|fuel IH]; intros xs.
  - destruct xs; constructor.
  - destruct xs as [|x xs]; [constructor|].
    change (batches_upto (S fuel) batch_size (x :: xs))
      with (take batch_size (x :: xs)
            :: batches_upto fuel batch_size (drop batch_size (x :: xs))).
    constructor; [|apply IH].
    rewrite length_take. simpl. lia.
Qed.

Section shapes.
Context {image truth dets score_t : Type}.
Variable perturb : PerturbImage.t -> image -> result image.
Variable detect : list image -> result (list dets).
Variable score : truth -> dets -> result score_t.
Variable aggregate : list score_t -> score_t.

Lemma detections_length (bs : list (list image)) (dss : list (list dets)) :
  Spec.per_image detect ->
  Forall2 (fun b ds => detect b = Ok ds) bs dss ->
  length (concat dss) = length (concat bs).
Proof.
  intros Hdet. induction 1 as [|b ds bs dss Hb _ IH]; simpl; [reflexivity|].
  rewrite !length_app, IH, (Hdet b ds Hb). reflexivity.
Qed.

(** One row of scores has one score per dataset item. *)
Lemma respond_row (perturbers : list PerturbImage.t) (dataset : list (image * truth))
    (batch_size : nat) (agg : score_t) (scores : list score_t) :
  (0 < batch_size)%nat -> Spec.per_image detect ->
  respond perturb detect score aggregate perturbers dataset batch_size = Ok (agg, scores) ->
  length scores = length dataset.
Proof.
  intros Hb Hdet H. unfold respond in H. bind_inv H.
  injection H as _ <-.
  apply for_each_length in Ha. apply for_each_Ok in Ha0.
  apply for_each_length in Ha1.
  rewrite Ha1, length_zip.
  rewrite (detections_length _ _ Hdet Ha0), (batches_concat _ _ Hb), Ha. lia.
Qed.

(** C2. Whenever the generator returns, the response curve and the full
    scores have one entry per combination, as many as the test helper
    counts, every row of the full scores has one score per dataset item
    (so the helper's three assertions pass), and with zero factories both
    outputs are empty. *)
Theorem generate_shapes (factories : list PerturbImageFactory.t)
    (dataset : list (image * truth)) (batch_size : nat) (verbose : bool)
    (curve : list score_t) (full_scores : list (list score_t)) :
  (0 < batch_size)%nat -> Spec.per_image detect ->
  generate perturb detect score aggregate factories dataset batch_size verbose
  = Ok (curve, full_scores) ->
  (exists num : nat,
     num_perturber_combos factories = Ok num
     /\ length curve = num /\ length full_scores = num)
  /\ Forall (fun scores => length scores = length dataset) full_scores
  /\ generator_assertions curve full_scores factories (length dataset) = Ok true
  /\ (factories = [] -> curve = [] /\ full_scores = []).
Proof.
  intros Hb Hdet H.
  assert ((exists num : nat,
             num_perturber_combos factories = Ok num
             /\ length curve = num /\ length full_scores = num)
          /\ Forall (fun scores => length scores = length dataset) full_scores
          /\ (factories = [] -> curve = [] /\ full_scores = [])) as Hshape.
  { destruct factories as [|f fs].
    - injection H as <- <-. split; [by exists 0%nat|]. split; [constructor | done].
    - unfold generate in H. bind_inv H. injection H as <- <-.
      apply for_each_Ok in Ha.
      pose proof (for_each_length _ _ _ Ha0) as Hrows.
      rewrite index_product_length in Hrows.
      split; [|split; [|discriminate]].
      + exists (Spec.product a).
        unfold num_perturber_combos. rewrite (count_loop_product _ _ Ha), !length_map.
        simpl. rewrite Nat.add_0_r. done.
      + apply for_each_Ok in Ha0. apply Forall_fmap.
        eapply Forall2_Forall_r; [exact Ha0|]. apply Forall_forall.
        intros idxs _ [agg scores] Hrow. bind_inv Hrow.
        exact (respond_row _ _ _ _ _ Hb Hdet Hrow). }
  destruct Hshape as ((num & Hnum & Hc & Hf) & Hrows & Hempty).
  split; [by exists num|]. split; [exact Hrows|]. split; [|exact Hempty].
  unfold generator_assertions. rewrite Hnum. simpl. f_equal.
  rewrite !bool_decide_eq_true_2 by done. simpl.
  apply forallb_forall. intros scores Hin. apply bool_decide_eq_true_2.
  rewrite Forall_forall in Hrows. apply Hrows, list_elem_of_In, Hin.
Qed.
End shapes.

(** The theorem at the sweep of two factories of lengths 3 and 2 over three
    images in batches of two: six combinations, rows of three scores. *)
Lemma generate_shapes_witness :
  exists (curve : list Q) (full_scores : list (list Q)),
    Scenarios.toy_sweep = Ok (curve, full_scores)
    /\ (exists num : nat,
          num_perturber_combos Scenarios.factories_3_2 = Ok num
          /\ length curve = num /\ length full_scores = num)
    /\ Forall (fun scores => length scores = 3%nat) full_scores.
Proof.
  assert (exists r, Scenarios.toy_sweep = Ok r) as [[curve full_scores] H]
    by (eexists; vm_compute; reflexivity).
  exists curve, full_scores. split; [exact H|].
  destruct (generate_shapes Scenarios.toy_perturb Scenarios.toy_detect
              Scenarios.toy_score Scenarios.toy_aggregate
              Scenarios.factories_3_2 Scenarios.toy_dataset 2 false
              curve full_scores) as (Hnum & Hrows & _).
  - lia.
  - intros batch ds [= <-]. reflexivity.
  - exact H.
  - split; [exact Hnum | exact Hrows].
Defined.

End GeneratorFacts.

(** ** Indexing a factory *)

Module IndexingFacts.

Import PerturbImageFactory.

Lemma construct_config (cls : PerturbImage.type) (key : string) (theta : Q) :
  is_Some (PerturbImage.params cls !! key) ->
  exists p,
    PerturbImage.construct cls key theta = Ok p
    /\ PerturbImage.class_of p = cls
    /\ PerturbImage.get_config p !! key = Some theta.
Proof.
  intros [d Hd]. unfold PerturbImage.construct. rewrite Hd.
  eexists. split; [reflexivity|]. split; [reflexivity|].
  unfold PerturbImage.get_config. simpl. apply lookup_insert_eq.
Qed.

Lemma getitem_in_range (self : t) (l : list Q) (i : nat) :
  thetas self = Ok l ->
  is_Some (PerturbImage.params (perturber self) !! theta_key self) ->
  (i < length l)%nat ->
  exists (p : PerturbImage.t) (theta : Q),
    getitem self (Z.of_nat i) = Ok p
    /\ l !! i = Some theta
    /\ PerturbImage.class_of p = perturber self
    /\ PerturbImage.get_config p !! theta_key self = Some theta.
Proof.
  intros Hl Hkey Hi. unfold getitem. rewrite Hl. simpl.
  destruct (Z.ltb_spec (Z.of_nat i) 0), (Z.leb_spec (Z.of_nat (length l)) (Z.of_nat i));
    simpl; try lia.
  rewrite Nat2Z.id.
  destruct (lookup_lt_is_Some_2 l i Hi) as [theta Htheta]. rewrite Htheta.
  destruct (construct_config (perturber self) (theta_key self) theta Hkey)
    as (p & Hp & Hcls & Hcfg).
  exists p, theta. done.
Qed.



End IndexingFacts.

(** ** Exporting and importing a configuration *)

Module ConfigFacts.

Import LinSpacePerturbImageFactory Configurable.

Lemma type_dict_snoc (impls : list PerturbImage.type) (cls : PerturbImage.type) :
  type_dict (impls ++ [cls]) = <[PerturbImage.name cls := cls]> (type_dict impls).
Proof. unfold type_dict. rewrite foldl_app. reflexivity. Qed.

Lemma type_dict_registered (impls : list PerturbImage.type) (s : string) (cls : PerturbImage.type) :
  type_dict impls !! s = Some cls -> cls ∈ impls /\ PerturbImage.name cls = s.
Proof.
  induction impls as [|c impls IH] using rev_ind.
  - unfold type_dict. simpl. rewrite lookup_empty. discriminate.
  - rewrite type_dict_snoc, lookup_insert. case_decide as Hs.
    + intros [= <-]. split; [|exact Hs].
      apply elem_of_app. right. by apply list_elem_of_singleton.
    + intros H. destruct (IH H) as [Hin Hn]. split; [|exact Hn].
      apply elem_of_app. by left.
Qed.

(** When no two registered classes share a name, every registered class is
    found under its own name. *)
Lemma type_dict_unique_names (impls : list PerturbImage.type) (cls : PerturbImage.type) :
  NoDup (PerturbImage.name <$> impls) -> cls ∈ impls ->
  type_dict impls !! PerturbImage.name cls = Some cls.
Proof.
  induction impls as [|c impls IH] using rev_ind; [set_solver|].
  rewrite fmap_app, type_dict_snoc, lookup_insert. simpl.
  intros Hnd Hin. apply NoDup_app in Hnd as (Hnd & Hfresh & _).
  apply elem_of_app in Hin as [Hin|Hin].
  - case_decide as Hs; [|by apply IH].
    exfalso. apply (Hfresh (PerturbImage.name cls)); [|set_solver].
    apply list_elem_of_fmap. by exists cls.
  - apply list_elem_of_singleton in Hin as ->. by rewrite decide_True.
Qed.

(** The lemma at a registry that holds the dummy perturber and a second
    class of another name. *)
Lemma type_dict_unique_names_witness :
  type_dict [PerturbImage.DummyPerturber; Scenarios.BlurPerturber] !! "DummyPerturber"
  = Some PerturbImage.DummyPerturber.
Proof.
  apply (type_dict_unique_names
           [PerturbImage.DummyPerturber; Scenarios.BlurPerturber]
           PerturbImage.DummyPerturber).
  - simpl. apply NoDup_cons. split; [|apply NoDup_singleton].
    intros Hin%list_elem_of_singleton. discriminate Hin.
  - constructor.
Defined.

Lemma exported_keys (self : t) :
  dom (get_config self) = list_to_set ["perturber"; "theta_key"; "start"; "stop"; "step"].
Proof.
  unfold get_config, PerturbImageFactory.get_config.
  rewrite !dom_insert_L, dom_singleton_L. set_solver.
Qed.

Lemma from_config_exported (perturber_impls : list PerturbImage.type) (self : t)
    (merge_default : bool) :
  type_dict perturber_impls !! PerturbImage.name (perturber self) = Some (perturber self) ->
  from_config perturber_impls (get_config self) merge_default = Ok self.
Proof.
  intros Hreg. unfold from_config.
  assert ((Val <$> get_config self) !! "perturber"
          = Some (Val (Str (PerturbImage.name (perturber self))))) as ->
    by (rewrite lookup_fmap; unfold get_config; by simplify_map_eq).
  simpl. rewrite Hreg. simpl.
  unfold ConfigurableCall.from_config.
  rewrite decide_True
    by (rewrite dom_insert_L, dom_fmap_L, exported_keys; set_solver).
  unfold init_kwargs, required, get_config, PerturbImageFactory.get_config.
  rewrite !lookup_insert_ne, !lookup_fmap by done.
  simplify_map_eq. simpl. by destruct self.
Qed.

(** A registered class is found under its name when every registered class
    of that name is that class. *)
Lemma type_dict_sole_name (impls : list PerturbImage.type) (cls : PerturbImage.type) :
  cls ∈ impls ->
  (forall c, c ∈ impls -> PerturbImage.name c = PerturbImage.name cls -> c = cls) ->
  type_dict impls !! PerturbImage.name cls = Some cls.
Proof.
  induction impls as [|c impls IH] using rev_ind;
    [intros Hin; by apply elem_of_nil in Hin|].
  intros Hin Hsole. rewrite type_dict_snoc, lookup_insert. case_decide as Hs.
  - f_equal. apply Hsole; [|exact Hs].
    apply elem_of_app. right. by apply list_elem_of_singleton.
  - apply IH.
    + apply elem_of_app in Hin as [Hin|Hin]; [exact Hin|].
      apply list_elem_of_singleton in Hin. by subst.
    + intros c' Hc'. apply Hsole, elem_of_app. by left.
Qed.

(** C3 (as amended). For a LinSpace factory built with a registered
    perturber class whose name no other registered class bears, importing
    the exported configuration gives back the factory: the same value, hence
    the same produced sequence, bound class and [theta_key], the same exported
    configuration, and the same outcome of [get(i)] at every index. *)
Theorem import_export_round_trip (perturber_impls : list PerturbImage.type) (self : t)
    (merge_default : bool) :
  perturber self ∈ perturber_impls ->
  (forall cls : PerturbImage.type,
     cls ∈ perturber_impls ->
     PerturbImage.name cls = PerturbImage.name (perturber self) ->
     cls = perturber self) ->
  exists hydrated : t,
    from_config perturber_impls (get_config self) merge_default = Ok hydrated
    /\ hydrated = self
    /\ thetas hydrated = thetas self
    /\ perturber hydrated = perturber self
    /\ theta_key hydrated = theta_key self
    /\ get_config hydrated = get_config self
    /\ forall idx : Z,
         PerturbImageFactory.getitem (base hydrated) idx
         = PerturbImageFactory.getitem (base self) idx.
Proof.
  intros Hin Hsole. exists self.
  split; [|repeat split].
  apply from_config_exported, type_dict_sole_name; assumption.
Qed.

(** The theorem at [LinSpace(start=1, stop=6, count=2)], with the dummy
    perturber and a class of another name registered. *)
Lemma import_export_round_trip_witness :
  from_config [PerturbImage.DummyPerturber; Scenarios.BlurPerturber]
    (get_config Scenarios.linspace_1_6_2) true
  = Ok Scenarios.linspace_1_6_2.
Proof.
  destruct (import_export_round_trip [PerturbImage.DummyPerturber; Scenarios.BlurPerturber]
              Scenarios.linspace_1_6_2 true) as (hydrated & H & -> & _).
  - apply list_elem_of_here.
  - intros cls Hcls Hname.
    apply elem_of_cons in Hcls as [->|Hcls]; [reflexivity|].
    apply list_elem_of_singleton in Hcls as ->. discriminate Hname.
  - exact H.
Defined.

(** C3 as the specification words it fails on the code: the class is looked
    up by its bare name. With two registered classes of one name the later
    one is bound; a factory built with the earlier one, which is registered,
    comes back bound to the other class, and its perturbers have another
    configuration (no ["param_2"]). *)
Lemma round_trip_fails_on_shared_name :
  perturber Scenarios.linspace_1_6_2
    ∈ [PerturbImage.DummyPerturber; Scenarios.OtherDummyPerturber]
  /\ from_config [PerturbImage.DummyPerturber; Scenarios.OtherDummyPerturber]
       (get_config Scenarios.linspace_1_6_2) true
     = Ok Scenarios.linspace_1_6_2_other
  /\ from_config [PerturbImage.DummyPerturber; Scenarios.OtherDummyPerturber]
       (get_config Scenarios.linspace_1_6_2) false
     = Ok Scenarios.linspace_1_6_2_other
  /\ perturber Scenarios.linspace_1_6_2_other <> perturber Scenarios.linspace_1_6_2
  /\ (fun p => PerturbImage.get_config p !! "param_2")
       <$> PerturbImageFactory.getitem (base Scenarios.linspace_1_6_2) 0
     = Ok (Some 2%Q)
  /\ (fun p => PerturbImage.get_config p !! "param_2")
       <$> PerturbImageFactory.getitem (base Scenarios.linspace_1_6_2_other) 0
     = Ok None.
Proof.
  split; [apply list_elem_of_here|].
  split; [vm_compute; reflexivity|].
  split; [vm_compute; reflexivity|].
  split; [discriminate|].
  split; vm_compute; reflexivity.
Qed.

(** A name the registry does not hold leaves [from_config] through the
    dictionary lookup, as a [KeyError] carrying the name. *)
Lemma from_config_unregistered (perturber_impls : list PerturbImage.type)
    (config_dict : gmap string value) (name : string) (merge_default : bool) :
  config_dict !! "perturber" = Some (Str name) ->
  type_dict perturber_impls !! name = None ->
  from_config perturber_impls config_dict merge_default = Raise (KeyError (Str name)).
Proof.
  intros Hname Hnone. unfold from_config.
  rewrite lookup_fmap, Hname. simpl. rewrite Hnone. reflexivity.
Qed.

(** A configuration without the key ["perturber"] leaves [from_config]
    through the first lookup, as [KeyError("perturber")]. *)
Example from_config_without_perturber :
  from_config [PerturbImage.DummyPerturber] (delete "perturber" Scenarios.bad_config) true
  = Raise (KeyError (Str "perturber")).
Proof. vm_compute. reflexivity. Qed.

(** C7 (the code at the failing input). Importing a configuration whose
    perturber is ["not a perturber"] raises [KeyError("not a perturber")]:
    the raw lookup failure, not a [ValueError] saying that the name is not a
    valid perturber; no factory is constructed. *)
Theorem from_config_bad_name_is_KeyError :
  from_config [PerturbImage.DummyPerturber] Scenarios.bad_config true
  = Raise (KeyError (Str "not a perturber")).
Proof.
  apply from_config_unregistered; vm_compute; reflexivity.
Qed.

(** The Step factory as the specification describes it reports the same
    name with a [ValueError], in the words [test_hyrdation_bounds] expects. *)
Example step_from_config_bad_name_is_ValueError :
  StepPerturbImageFactory.from_config [PerturbImage.DummyPerturber] Scenarios.bad_config true
  = Raise (ValueError "not a perturber is not a valid perturber.").
Proof. vm_compute. reflexivity. Qed.

End ConfigFacts.

(** ** Metadata required by a perturber *)

Module MetadataFacts.

Import JitterOTFPerturber.

Section otf.
Context {image sensor scenario : Type}.
Variable simulate : sensor -> scenario -> Q -> image -> image.
Variable simulate_default : image -> image.

(** C9. A perturber built with a sensor and a scenario requires
    ["img_gsd"]: without the entry [perturb] raises a [ValueError] whose
    message names the key; with the entry the call succeeds. *)
Theorem perturb_requires_img_gsd (self : t) (sn : sensor) (sc : scenario)
    (img : image) (additional_params : gmap string Q) :
  sensor_of self = Some sn -> scenario_of self = Some sc ->
  (additional_params !! "img_gsd" = None ->
   perturb simulate simulate_default self img additional_params
   = Raise (ValueError (missing_message "img_gsd")))
  /\ (forall gsd : Q,
        additional_params !! "img_gsd" = Some gsd ->
        perturb simulate simulate_default self img additional_params
        = Ok (simulate sn sc gsd img))
  /\ String.index 0 "img_gsd" (missing_message "img_gsd") = Some 1%nat.
Proof.
  intros Hsn Hsc. unfold perturb. rewrite Hsn, Hsc.
  split; [|split].
  - intros ->. reflexivity.
  - intros gsd ->. reflexivity.
  - reflexivity.
Qed.
End otf.

(** The theorem at the two cases of [test_provided_additional_params]: the
    empty metadata and [{"img_gsd": 3.19/160}]. *)
Lemma perturb_requires_img_gsd_witness :
  let p := {| sensor_of := Some tt; scenario_of := Some tt |} in
  let sim := fun (_ _ : unit) (gsd img : Q) => (gsd * img)%Q in
  perturb sim id p 1%Q ∅ = Raise (ValueError "'img_gsd' must be present in image metadata")
  /\ perturb sim id p 1%Q {[ "img_gsd" := (319 # 16000)%Q ]} = Ok ((319 # 16000) * 1)%Q.
Proof.
  intros p sim.
  destruct (perturb_requires_img_gsd sim id p tt tt 1%Q ∅ eq_refl eq_refl) as (Hnone & _ & _).
  destruct (perturb_requires_img_gsd sim id p tt tt 1%Q {[ "img_gsd" := (319 # 16000)%Q ]}
              eq_refl eq_refl) as (_ & Hsome & _).
  split; [apply Hnone | apply Hsome]; reflexivity.
Defined.

End MetadataFacts.

(** ** The sweep runs to completion *)

Module SweepFacts.

Import GenerateObjectDetectorBlackboxResponse PyFacts IndexingFacts.

(** Every enumerated combination holds one valid index per factory. *)
Lemma index_product_in_range (lengths : list nat) (idxs : list nat) :
  idxs ∈ index_product lengths -> Forall2 (fun i L => (i < L)%nat) idxs lengths.
Proof.
  revert idxs. induction lengths as [|L lengths IH]; intros idxs; simpl.
  - intros ->%list_elem_of_singleton. constructor.
  - intros Hin. apply list_elem_of_In, in_flat_map in Hin as (i & Hi & Hin).
    apply in_seq in Hi. apply list_elem_of_In, list_elem_of_fmap in Hin as (rest & -> & Hrest).
    constructor; [lia | by apply IH].
Qed.

Section returns.
Context {image truth dets score_t : Type}.
Variable perturb : PerturbImage.t -> image -> result image.
Variable detect : list image -> result (list dets).
Variable score : truth -> dets -> result score_t.
Variable aggregate : list score_t -> score_t.
Hypothesis perturb_returns : forall p img, exists img', perturb p img = Ok img'.
Hypothesis detect_returns : forall batch, exists ds, detect batch = Ok ds.
Hypothesis score_returns : forall gt d, exists s, score gt d = Ok s.

Lemma apply_all_returns (perturbers : list PerturbImage.t) (img : image) :
  exists img', apply_all perturb perturbers img = Ok img'.
Proof.
  revert img. induction perturbers as [|p rest IH]; intros img; simpl.
  - by exists img.
  - destruct (perturb_returns p img) as [img1 ->]. simpl. apply IH.
Qed.

Lemma respond_returns (perturbers : list PerturbImage.t) (dataset : list (image * truth))
    (batch_size : nat) :
  exists row, respond perturb detect score aggregate perturbers dataset batch_size = Ok row.
Proof.
  unfold respond.
  destruct (for_each_total (fun item => apply_all perturb perturbers item.1) dataset)
    as [perturbed ->].
  { apply Forall_forall. intros item _. apply apply_all_returns. }
  simpl.
  destruct (for_each_total detect (batches batch_size perturbed)) as [per_batch ->].
  { apply Forall_forall. intros b _. apply detect_returns. }
  simpl.
  destruct (for_each_total (fun gd => score gd.1.2 gd.2) (zip dataset (concat per_batch)))
    as [scores ->].
  { apply Forall_forall. intros gd _. apply score_returns. }
  simpl. by eexists.
Qed.

Lemma combination_returns (factories : list PerturbImageFactory.t)
    (lengths idxs : list nat) :
  Forall Spec.sweepable factories ->
  Forall2 (fun f L => PerturbImageFactory.len f = Ok L) factories lengths ->
  Forall2 (fun i L => (i < L)%nat) idxs lengths ->
  exists perturbers, combination factories idxs = Ok perturbers.
Proof.
  intros Hsw Hlen. revert idxs.
  induction Hlen as [|f L fs lengths Hf _ IH]; intros idxs Hidx.
  - inversion Hidx; subst. by exists [].
  - inversion Hidx as [|i ? idxs' ? Hi Hidx']; subst.
    apply Forall_cons in Hsw as [[[l Hl] Hkey] Hsw].
    unfold PerturbImageFactory.len in Hf. rewrite Hl in Hf. injection Hf as <-.
    destruct (getitem_in_range f l i Hl Hkey Hi) as (p & _ & Hp & _).
    destruct (IH Hsw idxs' Hidx') as [ps Hps].
    exists (p :: ps). unfold combination in *. simpl. rewrite Hp. simpl.
    rewrite Hps. reflexivity.
Qed.

(** When no capability raises and every factory can be swept, the
    generator returns. *)
Lemma generate_returns (factories : list PerturbImageFactory.t)
    (dataset : list (image * truth)) (batch_size : nat) (verbose : bool) :
  Forall Spec.sweepable factories ->
  exists curve full_scores,
    generate perturb detect score aggregate factories dataset batch_size verbose
    = Ok (curve, full_scores).
Proof.
  intros Hsw. destruct factories as [|f fs]; [by exists [], []|].
  unfold generate.
  destruct (for_each_total PerturbImageFactory.len (f :: fs)) as [lengths Hlen].
  { eapply Forall_impl; [exact Hsw|]. intros g [[l Hl] _].
    exists (length l). unfold PerturbImageFactory.len. by rewrite Hl. }
  rewrite Hlen. simpl. apply for_each_Ok in Hlen.
  match goal with
  | |- context [for_each ?body (index_product lengths)] =>
      destruct (for_each_total body (index_product lengths)) as [rows ->]
  end.
  { apply Forall_forall. intros idxs Hin.
    destruct (combination_returns (f :: fs) lengths idxs Hsw Hlen
                (index_product_in_range _ _ Hin)) as [ps ->].
    simpl. apply respond_returns. }
  simpl. by eexists _, _.
Qed.
End returns.

End SweepFacts.

(** ** Random detections *)

Module RandDetsFacts.

Import rand_dets.

Lemma randrange_within (start stop : Z) (s : random.state) :
  start < stop ->
  exists v,
    random.randrange start stop s = Ok (v, (random.next s).2) /\ start <= v < stop.
Proof.
  intros Hlt. unfold random.randrange.
  destruct (Z.leb_spec stop start); [lia|].
  eexists. split; [reflexivity|].
  pose proof (Z.mod_pos_bound (Z.of_N (random.next s).1) (stop - start)). lia.
Qed.

Lemma randrange_empty (start stop : Z) (s : random.state) :
  stop <= start ->
  random.randrange start stop s = Raise (ValueError "empty range for randrange()").
Proof.
  intros Hle. unfold random.randrange.
  destruct (Z.leb_spec stop start); [reflexivity | lia].
Qed.

Lemma random_unit (s : random.state) :
  (0 <= (random.random s).1)%Q /\ ((random.random s).1 < 1)%Q.
Proof.
  unfold random.random. cbn [fst].
  pose proof (Z.mod_pos_bound (Z.of_N (random.next s).1) (2 ^ 53) eq_refl) as Hm.
  revert Hm. generalize (Z.of_N (random.next s).1 mod 2 ^ 53) as m. intros m Hm.
  unfold Qle, Qlt. cbn [Qnum Qden]. rewrite Pos2Z.inj_pow. lia.
Qed.

(** One successful draw of [random.randrange] in the goal, named [x]. *)
Ltac draw H x Hx :=
  match goal with
  | |- context [random.randrange ?a ?b ?s] =>
      destruct (randrange_within a b s H) as (x & -> & Hx);
      cbn [mbind result_bind Py.bind]
  end.

(** The box constructor never refuses what [_get_rand_bbox] passes to it. *)
Lemma get_rand_bbox_within (w h : Z) (s : random.state) :
  0 < w -> 0 < h ->
  exists box s',
    _get_rand_bbox (w, h) s = Ok (box, s')
    /\ (0 <= (AxisAlignedBoundingBox.min_vertex box).1
        /\ (AxisAlignedBoundingBox.min_vertex box).1 <= (AxisAlignedBoundingBox.max_vertex box).1
        /\ (AxisAlignedBoundingBox.max_vertex box).1 < w)
    /\ (0 <= (AxisAlignedBoundingBox.min_vertex box).2
        /\ (AxisAlignedBoundingBox.min_vertex box).2 <= (AxisAlignedBoundingBox.max_vertex box).2
        /\ (AxisAlignedBoundingBox.max_vertex box).2 < h).
Proof.
  intros Hw Hh. unfold _get_rand_bbox. cbn [fst snd].
  draw Hw x0 Hx0. draw Hw x1 Hx1. draw Hh y0 Hy0. draw Hh y1 Hy1.
  unfold AxisAlignedBoundingBox.init. cbn [fst snd].
  destruct (Z.leb_spec (Z.min x0 x1) (Z.max x0 x1)); [|lia].
  destruct (Z.leb_spec (Z.min y0 y1) (Z.max y0 y1)); [|lia].
  simpl. eexists _, _. split; [reflexivity|]. simpl. lia.
Qed.

Lemma gen_loop_fits (w h : Z) (n : nat) (s : random.state) :
  0 < w -> 0 < h ->
  exists dets s',
    gen_loop n (w, h) s = Ok (dets, s')
    /\ length dets = n
    /\ Forall (Spec.fits_image (w, h)) dets.
Proof.
  intros Hw Hh. revert s. induction n as [|n IH]; intros s; cbn [gen_loop].
  - by exists [], s.
  - destruct (get_rand_bbox_within w h s Hw Hh) as (box & s1 & -> & Hx & Hy).
    cbn [mbind result_bind Py.bind].
    destruct (IH (random.random s1).2) as (rest & s2 & -> & Hlen & Hrest).
    cbn [mbind result_bind Py.bind].
    eexists _, _. split; [reflexivity|]. split; [simpl; by rewrite Hlen|].
    constructor; [|exact Hrest].
    split; [exact Hx|]. split; [exact Hy|].
    eexists. split; [reflexivity|]. apply random_unit.
Qed.

(** For an image with positive sides and whatever the random generator
    draws, [gen_rand_dets] returns exactly [n_dets] detections (none for a
    negative [n_dets]), each a box with ordered corners inside the image and a
    single ["class"] score of [[0, 1)]: the box constructor never raises. *)
Theorem gen_rand_dets_fit (w h n_dets : Z) (s : random.state) :
  0 < w -> 0 < h ->
  exists dets s',
    gen_rand_dets (w, h) n_dets s = Ok (dets, s')
    /\ length dets = Z.to_nat n_dets
    /\ Forall (Spec.fits_image (w, h)) dets.
Proof. intros Hw Hh. apply gen_loop_fits; assumption. Qed.

(** The theorem at three detections in a 640 by 480 image. *)
Lemma gen_rand_dets_fit_witness :
  exists dets s',
    gen_rand_dets (640, 480) 3 Scenarios.counting_stream = Ok (dets, s')
    /\ length dets = 3%nat
    /\ Forall (Spec.fits_image (640, 480)) dets.
Proof.
  apply (gen_rand_dets_fit 640 480 3 Scenarios.counting_stream); lia.
Defined.

(** Without detections to make nothing is drawn and nothing can fail, even
    for an empty image; with at least one detection to make, an image with a
    side [<= 0] makes [random.randrange] raise a [ValueError]. *)
Theorem gen_rand_dets_edges (w h n_dets : Z) (s : random.state) :
  (n_dets <= 0 -> gen_rand_dets (w, h) n_dets s = Ok ([], s))
  /\ (0 < n_dets -> w <= 0 \/ h <= 0 ->
      exists msg, gen_rand_dets (w, h) n_dets s = Raise (ValueError msg)).
Proof.
  unfold gen_rand_dets. split.
  - intros Hn. replace (Z.to_nat n_dets) with 0%nat by lia. reflexivity.
  - intros Hn Hside.
    destruct (Z.to_nat n_dets) as [|n] eqn:E; [lia|]. simpl.
    unfold _get_rand_bbox.
    destruct (Z.le_gt_cases w 0) as [Hw|Hw].
    + cbn [fst snd]. rewrite (randrange_empty 0 w s Hw). by eexists.
    + destruct Hside as [Hside|Hside]; [lia|].
      cbn [fst snd]. draw Hw x0 Hx0. draw Hw x1 Hx1.
      rewrite (randrange_empty 0 h _ Hside). by eexists.
Qed.

(** The theorem at no detection in an empty image, and at one detection in
    an image of height 0. *)
Lemma gen_rand_dets_edges_witness :
  gen_rand_dets (0, 0) 0 Scenarios.counting_stream = Ok ([], Scenarios.counting_stream)
  /\ exists msg, gen_rand_dets (640, 0) 1 Scenarios.counting_stream = Raise (ValueError msg).
Proof.
  split.
  - apply (gen_rand_dets_edges 0 0 0 Scenarios.counting_stream). lia.
  - apply (gen_rand_dets_edges 640 0 1 Scenarios.counting_stream); lia.
Defined.

(** Generating [n + m] detections is generating [n] and then [m] from the
    state the first [n] left behind, failures included. *)
Theorem gen_rand_dets_app (im_shape : Z * Z) (n m : Z) (s : random.state) :
  0 <= n -> 0 <= m ->
  gen_rand_dets im_shape (n + m) s
  = '(first, s1) ← gen_rand_dets im_shape n s;
    '(second, s2) ← gen_rand_dets im_shape m s1;
    mret ((first ++ second)%list, s2).
Proof.
  intros Hn Hm. unfold gen_rand_dets. rewrite Z2Nat.inj_add by lia.
  generalize (Z.to_nat m) as k. intros k.
  revert s. induction (Z.to_nat n) as [|j IH]; intros s; cbn [gen_loop Nat.add].
  - cbn [mbind mret result_bind result_ret Py.bind].
    destruct (gen_loop k im_shape s) as [[second s2]|e]; reflexivity.
  - destruct (_get_rand_bbox im_shape s) as [[box s1]|e];
      cbn [mbind mret result_bind result_ret Py.bind]; [|reflexivity].
    rewrite IH.
    destruct (gen_loop j im_shape (random.random s1).2) as [[rest s2]|e];
      cbn [mbind mret result_bind result_ret Py.bind]; [|reflexivity].
    destruct (gen_loop k im_shape s2) as [[second s3]|e]; reflexivity.
Qed.

(** The theorem at 1 + 2 detections. *)
Lemma gen_rand_dets_app_witness :
  gen_rand_dets (640, 480) (1 + 2) Scenarios.counting_stream
  = '(first, s1) ← gen_rand_dets (640, 480) 1 Scenarios.counting_stream;
    '(second, s2) ← gen_rand_dets (640, 480) 2 s1;
    mret ((first ++ second)%list, s2).
Proof.
  apply (gen_rand_dets_app (640, 480) 1 2 Scenarios.counting_stream); lia.
Defined.

End RandDetsFacts.

(** ** The count of combinations as a function of the collection *)

Module CountFacts.

Import test_generator_utils PyFacts.

Lemma product_app (l1 l2 : list nat) :
  Spec.product (l1 ++ l2) = (Spec.product l1 * Spec.product l2)%nat.
Proof.
  induction l1 as [|a l1 IH]; simpl; [lia|].
  unfold Spec.product in *. rewrite IH. lia.
Qed.

Lemma product_perm (l1 l2 : list nat) :
  l1 ≡ₚ l2 -> Spec.product l1 = Spec.product l2.
Proof.
  unfold Spec.product.
  induction 1 as [|a l1 l2 _ IH|a b l|l1 l2 l3 _ IH1 _ IH2]; simpl; lia.
Qed.


(** The loop multiplies the lengths it collects, and stops at the first
    [len] that raises. *)
Lemma count_loop_for_each (fs : list PerturbImageFactory.t) (num : nat) :
  count_loop num fs
  = for_each PerturbImageFactory.len fs ≫= fun lengths => Ok (num * Spec.product lengths)%nat.
Proof.
  revert num. induction fs as [|f fs IH]; intros num; cbn [count_loop for_each].
  - cbn. f_equal. lia.
  - destruct (PerturbImageFactory.len f) as [n|e]; cbn; [|reflexivity].
    rewrite IH.
    destruct (for_each PerturbImageFactory.len fs) as [lengths|e]; cbn; [|reflexivity].
    f_equal. unfold Spec.product. simpl. lia.
Qed.

Lemma for_each_len_Ok (fs : list PerturbImageFactory.t) (lengths : list nat) :
  for_each PerturbImageFactory.len fs = Ok lengths -> lengths = Spec.len_or_0 <$> fs.
Proof.
  intros H. apply for_each_Ok in H.
  induction H as [|f L fs lengths Hf _ IH]; [reflexivity|].
  simpl. unfold Spec.len_or_0 at 1. rewrite Hf, IH. reflexivity.
Qed.

Lemma for_each_len_all (fs : list PerturbImageFactory.t) :
  Forall (fun f => exists n, PerturbImageFactory.len f = Ok n) fs ->
  for_each PerturbImageFactory.len fs = Ok (Spec.len_or_0 <$> fs).
Proof.
  intros H. destruct (for_each_total _ _ H) as [lengths Hl].
  rewrite Hl. f_equal. by apply for_each_len_Ok.
Qed.

(** The count is a number exactly when every [len] returns. *)
Lemma num_perturber_combos_Ok (fs : list PerturbImageFactory.t) (n : nat) :
  num_perturber_combos fs = Ok n <->
  Forall (fun f => exists k, PerturbImageFactory.len f = Ok k) fs
  /\ n = match fs with
         | [] => 0%nat
         | _ :: _ => Spec.product (Spec.len_or_0 <$> fs)
         end.
Proof.
  unfold num_perturber_combos. rewrite count_loop_for_each. split.
  - intros H. apply bind_Ok in H as (lengths & Hl & H).
    pose proof (for_each_len_Ok _ _ Hl) as ->.
    apply for_each_Ok in Hl. split.
    + apply Forall2_Forall_l with (Q := fun f => exists k, PerturbImageFactory.len f = Ok k)
        in Hl; [exact Hl|].
      apply Forall_forall. intros k _ f Hf. by exists k.
    + injection H as <-. destruct fs; simpl; lia.
  - intros [Hall ->]. rewrite (for_each_len_all fs Hall). cbn.
    f_equal. destruct fs; simpl; lia.
Qed.



(** The count does not depend on the order of the factories: a reordered
    collection that counts has the same count. *)
Theorem num_perturber_combos_perm (fs fs' : list PerturbImageFactory.t) (n : nat) :
  fs ≡ₚ fs' ->
  num_perturber_combos fs = Ok n ->
  num_perturber_combos fs' = Ok n.
Proof.
  intros Hperm H. apply num_perturber_combos_Ok in H as [Hall ->].
  apply num_perturber_combos_Ok. split.
  - by rewrite <- Hperm.
  - assert (Spec.product (Spec.len_or_0 <$> fs) = Spec.product (Spec.len_or_0 <$> fs')) as Hp
      by (apply product_perm; by rewrite Hperm).
    pose proof (Permutation_length Hperm) as Hlen.
    destruct fs, fs'; simpl in Hlen; try discriminate; [reflexivity | exact Hp].
Qed.

(** The theorem at the two factories of lengths 3 and 2, swapped. *)
Lemma num_perturber_combos_perm_witness :
  num_perturber_combos (reverse Scenarios.factories_3_2) = Ok 6%nat.
Proof.
  apply (num_perturber_combos_perm Scenarios.factories_3_2).
  - apply Permutation_cons_append.
  - reflexivity.
Defined.

(** Counts multiply: the count of two collections put one after the other
    is the product of their counts (both collections having a factory). *)
Theorem num_perturber_combos_app (fs1 fs2 : list PerturbImageFactory.t) (n1 n2 : nat) :
  fs1 <> [] -> fs2 <> [] ->
  num_perturber_combos fs1 = Ok n1 ->
  num_perturber_combos fs2 = Ok n2 ->
  num_perturber_combos (fs1 ++ fs2) = Ok (n1 * n2)%nat.
Proof.
  intros Hne1 Hne2 H1 H2.
  apply num_perturber_combos_Ok in H1 as [Hall1 ->].
  apply num_perturber_combos_Ok in H2 as [Hall2 ->].
  apply num_perturber_combos_Ok. split; [by apply Forall_app|].
  rewrite fmap_app, product_app.
  destruct fs1, fs2; done.
Qed.

(** The theorem at the collection of lengths 3 and 2 followed by itself. *)
Lemma num_perturber_combos_app_witness :
  num_perturber_combos (Scenarios.factories_3_2 ++ Scenarios.factories_3_2) = Ok 36%nat.
Proof.
  apply (num_perturber_combos_app Scenarios.factories_3_2 Scenarios.factories_3_2 6 6);
    (discriminate || reflexivity).
Defined.

(** If [len] of some factory raises, the helper raises the exception of
    the first such factory and produces no count. *)
Theorem num_perturber_combos_raises
    (good : list PerturbImageFactory.t) (f : PerturbImageFactory.t)
    (rest : list PerturbImageFactory.t) (e : exn) :
  Forall (fun g => exists n, PerturbImageFactory.len g = Ok n) good ->
  PerturbImageFactory.len f = Raise e ->
  num_perturber_combos (good ++ f :: rest) = Raise e.
Proof.
  intros Hgood Hf. unfold num_perturber_combos. rewrite count_loop_for_each.
  assert (for_each PerturbImageFactory.len (good ++ f :: rest) = Raise e) as ->;
    [|reflexivity].
  induction Hgood as [|g good [n Hg] _ IH]; simpl.
  - rewrite Hf. reflexivity.
  - rewrite Hg. simpl. rewrite IH. reflexivity.
Qed.

(** The theorem at a LinSpace factory with a negative count placed after a
    good one: the [ValueError] of numpy's linspace comes through. *)
Lemma num_perturber_combos_raises_witness :
  num_perturber_combos
    [StepPerturbImageFactory.base Scenarios.step_1_6_2;
     LinSpacePerturbImageFactory.base Scenarios.linspace_1_6_neg;
     LinSpacePerturbImageFactory.base Scenarios.linspace_1_6_2]
  = Raise (ValueError "Number of samples, -1, must be non-negative.").
Proof.
  apply (num_perturber_combos_raises
           [StepPerturbImageFactory.base Scenarios.step_1_6_2]
           (LinSpacePerturbImageFactory.base Scenarios.linspace_1_6_neg)
           [LinSpacePerturbImageFactory.base Scenarios.linspace_1_6_2]).
  - repeat constructor. by exists 3%nat.
  - reflexivity.
Defined.

(** With no factory the helper's assertions hold of empty outputs only,
    whatever the size of the dataset. *)
Theorem generator_assertions_no_factories {S : Type}
    (curve : list S) (full_scores : list (list S)) (n_data : nat) :
  generator_assertions curve full_scores [] n_data
  = Ok (match curve, full_scores with
        | [], [] => true
        | _, _ => false
        end).
Proof. destruct curve, full_scores; reflexivity. Qed.

(** The length of a LinSpace factory as its base class sees it. *)
Lemma linspace_len (f : LinSpacePerturbImageFactory.t) :
  (LinSpacePerturbImageFactory.start f == LinSpacePerturbImageFactory.stop f)%Q
  \/ 0 <= LinSpacePerturbImageFactory.step f ->
  PerturbImageFactory.len (LinSpacePerturbImageFactory.base f) = Ok (Spec.linspace_count f).
Proof.
  intros H. unfold PerturbImageFactory.len, Spec.linspace_count. simpl.
  unfold LinSpacePerturbImageFactory.thetas.
  destruct (Qeq_bool _ _) eqn:E; [reflexivity|].
  destruct H as [H|H]; [apply Qeq_bool_iff in H; congruence|].
  rewrite (LinspaceFacts.linspace_ok _ _ _ H). simpl.
  by rewrite length_map, length_seq.
Qed.

(** For a collection of LinSpace factories (at least one), each with
    [start == stop] or a count [>= 0], the helper counts the product of the
    counts, a factory with [start == stop] counting as 0. *)
Theorem num_perturber_combos_linspace (fs : list LinSpacePerturbImageFactory.t) :
  fs <> [] ->
  Forall (fun f =>
            (LinSpacePerturbImageFactory.start f == LinSpacePerturbImageFactory.stop f)%Q
            \/ 0 <= LinSpacePerturbImageFactory.step f) fs ->
  num_perturber_combos (LinSpacePerturbImageFactory.base <$> fs)
  = Ok (Spec.product (Spec.linspace_count <$> fs)).
Proof.
  intros Hne Hall.
  rewrite (CombinationFacts.count_product_of_lengths
             (LinSpacePerturbImageFactory.base <$> fs) (Spec.linspace_count <$> fs)).
  - destruct fs; done.
  - apply Forall2_fmap, Forall_Forall2_diag.
    eapply Forall_impl; [exact Hall|]. intros f Hf. by apply linspace_len.
Qed.

(** The theorem at counts 2 and 2, and with an empty range among them. *)
Lemma num_perturber_combos_linspace_witness :
  num_perturber_combos
    (LinSpacePerturbImageFactory.base
       <$> [Scenarios.linspace_1_6_2; Scenarios.linspace_6_1_2])
  = Ok 4%nat
  /\ num_perturber_combos
       (LinSpacePerturbImageFactory.base
          <$> [Scenarios.linspace_1_6_2; Scenarios.linspace_4_4_1])
     = Ok 0%nat.
Proof.
  split.
  - apply (num_perturber_combos_linspace [Scenarios.linspace_1_6_2; Scenarios.linspace_6_1_2]);
      [discriminate|].
    repeat (apply Forall_cons; split; [right; simpl; lia|]). constructor.
  - apply (num_perturber_combos_linspace [Scenarios.linspace_1_6_2; Scenarios.linspace_4_4_1]);
      [discriminate|].
    repeat (apply Forall_cons; split; [right; simpl; lia|]). constructor.
Defined.

End CountFacts.

(** ** Importing any configuration *)

Module ImportFacts.

Import LinSpacePerturbImageFactory Configurable.

Lemma exported_lookup (self : t) :
  get_config self !! "perturber" = Some (Str (PerturbImage.name (perturber self)))
  /\ get_config self !! "theta_key" = Some (Str (theta_key self))
  /\ get_config self !! "start" = Some (Float (start self))
  /\ get_config self !! "stop" = Some (Float (stop self))
  /\ get_config self !! "step" = Some (Int (step self)).
Proof.
  unfold get_config, PerturbImageFactory.get_config. simpl.
  repeat split; by simplify_map_eq.
Qed.

(** Importing an exported configuration binds whatever class the registry
    holds under the exported name, and restores [theta_key] and the range. *)
Theorem import_binds_resolved (perturber_impls : list PerturbImage.type) (self : t)
    (cls : PerturbImage.type) (merge_default : bool) :
  type_dict perturber_impls !! PerturbImage.name (perturber self) = Some cls ->
  from_config perturber_impls (get_config self) merge_default
  = Ok {| perturber := cls; theta_key := theta_key self;
          start := start self; stop := stop self; step := step self |}.
Proof.
  intros Hreg. unfold from_config.
  destruct (exported_lookup self) as (Hp & Hk & Hstart & Hstop & Hstep).
  rewrite lookup_fmap, Hp. simpl. rewrite Hreg. simpl.
  unfold ConfigurableCall.from_config.
  rewrite decide_True
    by (rewrite dom_insert_L, dom_fmap_L, ConfigFacts.exported_keys; set_solver).
  unfold init_kwargs, required.
  rewrite lookup_insert_eq.
  rewrite !lookup_insert_ne, !lookup_fmap, Hk, Hstart, Hstop, Hstep by done.
  reflexivity.
Qed.

(** The theorem at two registered classes of one name: the later one is
    bound. *)
Lemma import_binds_resolved_witness :
  from_config [PerturbImage.DummyPerturber; Scenarios.OtherDummyPerturber]
    (get_config Scenarios.linspace_1_6_2) false
  = Ok {| perturber := Scenarios.OtherDummyPerturber;
          theta_key := "param_1"; start := 1; stop := 6; step := 2 |}.
Proof.
  apply (import_binds_resolved
           [PerturbImage.DummyPerturber; Scenarios.OtherDummyPerturber]
           Scenarios.linspace_1_6_2 Scenarios.OtherDummyPerturber false).
  vm_compute. reflexivity.
Defined.

(** A configuration without the key ["perturber"] is refused with
    [KeyError("perturber")], whatever else it holds. *)
Theorem from_config_needs_perturber (perturber_impls : list PerturbImage.type)
    (config_dict : gmap string value) (merge_default : bool) :
  config_dict !! "perturber" = None ->
  from_config perturber_impls config_dict merge_default = Raise (KeyError (Str "perturber")).
Proof.
  intros Hnone. unfold from_config. rewrite lookup_fmap, Hnone. reflexivity.
Qed.

(** The theorem at the empty configuration. *)
Lemma from_config_needs_perturber_witness :
  from_config [PerturbImage.DummyPerturber] ∅ true = Raise (KeyError (Str "perturber")).
Proof.
  apply (from_config_needs_perturber [PerturbImage.DummyPerturber] ∅ true).
  apply lookup_empty.
Defined.

(** For a configuration that gives [theta_key], [start] and [stop] (the
    parameters without default, which [merge_default] would otherwise fill
    with [None]), whatever [from_config] returns was read off the
    configuration: the factory is bound to a registered class whose name is
    the stored one, its [theta_key], [start] and [stop] are the stored ones,
    its count is the stored one or 1 when none is stored, and the
    configuration holds no other key. *)
Theorem from_config_sound (perturber_impls : list PerturbImage.type)
    (config_dict : gmap string value) (merge_default : bool) (self : t) :
  is_Some (config_dict !! "theta_key") ->
  is_Some (config_dict !! "start") ->
  is_Some (config_dict !! "stop") ->
  from_config perturber_impls config_dict merge_default = Ok self ->
  perturber self ∈ perturber_impls
  /\ config_dict !! "perturber" = Some (Str (PerturbImage.name (perturber self)))
  /\ config_dict !! "theta_key" = Some (Str (theta_key self))
  /\ (exists v, config_dict !! "start" = Some v /\ Spec.number_is v (start self))
  /\ (exists v, config_dict !! "stop" = Some v /\ Spec.number_is v (stop self))
  /\ (config_dict !! "step" = Some (Int (step self))
      \/ config_dict !! "step" = None /\ step self = 1)
  /\ dom config_dict ⊆ {[ "perturber"; "theta_key"; "start"; "stop"; "step" ]}.
Proof.
  intros _ _ _. unfold from_config. rewrite lookup_fmap.
  destruct (config_dict !! "perturber") as [name|] eqn:Hp; [simpl | discriminate].
  destruct name as [name| |]; try discriminate. simpl.
  destruct (type_dict perturber_impls !! name) as [cls|] eqn:Hcls; [simpl | discriminate].
  unfold ConfigurableCall.from_config.
  destruct (decide _) as [Hdom|_]; [|discriminate].
  unfold init_kwargs, required.
  rewrite lookup_insert_eq.
  rewrite !lookup_insert_ne, !lookup_fmap by done. simpl.
  destruct (ConfigFacts.type_dict_registered perturber_impls name cls Hcls) as [Hin Hname].
  assert (dom config_dict ⊆ {[ "perturber"; "theta_key"; "start"; "stop"; "step" ]})
    as Hkeys.
  { intros k Hk.
    assert (k ∈ (list_to_set ["perturber"; "theta_key"; "start"; "stop"; "step"]
                 : gset string)) as H
      by (apply Hdom; rewrite dom_insert_L, dom_fmap_L; apply elem_of_union; by right).
    rewrite elem_of_list_to_set, !elem_of_cons, elem_of_nil in H.
    rewrite !elem_of_union, !elem_of_singleton. tauto. }
  destruct (config_dict !! "theta_key") as [[key| |]|]; simpl; try discriminate.
  destruct (config_dict !! "start") as [[?|zstart|qstart]|]; simpl; try discriminate;
    destruct (config_dict !! "stop") as [[?|zstop|qstop]|]; simpl; try discriminate;
    destruct (config_dict !! "step") as [[?|z|?]|]; simpl; try discriminate;
    intros [= <-]; simpl; subst name;
    (split; [exact Hin|]); (split; [reflexivity|]); (split; [reflexivity|]);
    (split; [eexists; split; [reflexivity|]; first [by left | right; by eexists]|]);
    (split; [eexists; split; [reflexivity|]; first [by left | right; by eexists]|]);
    (split; [first [by left | by right] | exact Hkeys]).
Qed.

(** The theorem at a configuration read from JSON. *)
Lemma from_config_sound_witness :
  PerturbImage.DummyPerturber ∈ [PerturbImage.DummyPerturber]
  /\ Scenarios.json_config !! "perturber" = Some (Str "DummyPerturber")
  /\ Scenarios.json_config !! "theta_key" = Some (Str "param_1")
  /\ exists v, Scenarios.json_config !! "start" = Some v /\ Spec.number_is v 1.
Proof.
  assert (from_config [PerturbImage.DummyPerturber] Scenarios.json_config true
          = Ok Scenarios.linspace_1_6_2) as H by (vm_compute; reflexivity).
  destruct (from_config_sound [PerturbImage.DummyPerturber] Scenarios.json_config true
              Scenarios.linspace_1_6_2) as (Hin & Hp & Hk & Hstart & _);
    [by eexists | by eexists | by eexists | exact H |].
  split; [exact Hin|]. split; [exact Hp|]. split; [exact Hk | exact Hstart].
Defined.

(** The exported configuration determines [theta_key], the range and the
    count, and the perturber class up to its name: two factories with equal
    exports produce the same values. *)
Theorem get_config_determines (f g : t) :
  get_config f = get_config g ->
  PerturbImage.name (perturber f) = PerturbImage.name (perturber g)
  /\ theta_key f = theta_key g
  /\ start f = start g
  /\ stop f = stop g
  /\ step f = step g
  /\ thetas f = thetas g.
Proof.
  intros H.
  destruct (exported_lookup f) as (Hp & Hk & Hstart & Hstop & Hstep).
  destruct (exported_lookup g) as (Hp' & Hk' & Hstart' & Hstop' & Hstep').
  rewrite H in Hp, Hk, Hstart, Hstop, Hstep.
  rewrite Hp in Hp'. rewrite Hk in Hk'. rewrite Hstart in Hstart'.
  rewrite Hstop in Hstop'. rewrite Hstep in Hstep'.
  injection Hp' as Hp'. injection Hk' as Hk'. injection Hstart' as Hstart'.
  injection Hstop' as Hstop'. injection Hstep' as Hstep'.
  repeat split; try done.
  unfold thetas. by rewrite Hstart', Hstop', Hstep'.
Qed.

(** The theorem at two factories bound to different classes of one name. *)
Lemma get_config_determines_witness :
  thetas Scenarios.linspace_1_6_2 = thetas Scenarios.linspace_1_6_2_other
  /\ perturber Scenarios.linspace_1_6_2 <> perturber Scenarios.linspace_1_6_2_other.
Proof.
  split; [|discriminate].
  apply (get_config_determines Scenarios.linspace_1_6_2 Scenarios.linspace_1_6_2_other).
  vm_compute. reflexivity.
Defined.

End ImportFacts.

(** ** The dummy perturber of the tests *)

Module DummyPerturberFacts.

Import test_step.

(** A dummy perturber rebuilt from its own configuration is the same
    perturber. *)
Theorem dummy_config_round_trip (d : DummyPerturber) :
  init_kwargs (get_config d) = Ok d.
Proof.
  unfold init_kwargs, get_config.
  rewrite decide_True by (rewrite dom_insert_L, dom_singleton_L; done).
  rewrite lookup_insert_eq, lookup_insert_ne, lookup_singleton_eq by done.
  by destruct d.
Qed.

(** Keyword arguments are laid over the defaults [param_1 = 1] and
    [param_2 = 2]: the configuration of the perturber built from [kwargs] is
    [kwargs] completed by the defaults. *)
Theorem dummy_kwargs_over_defaults (kwargs : gmap string Q) (d : DummyPerturber) :
  init_kwargs kwargs = Ok d ->
  get_config d = kwargs ∪ {[ "param_1" := 1%Q; "param_2" := 2%Q ]}.
Proof.
  unfold init_kwargs. destruct (decide _) as [Hdom|_]; [|discriminate].
  intros [= <-]. unfold get_config, init. simpl.
  apply map_eq. intros k. rewrite lookup_union.
  destruct (decide (k = "param_1")) as [->|H1].
  - rewrite !lookup_insert_eq. by destruct (kwargs !! "param_1").
  - rewrite !(lookup_insert_ne _ "param_1") by done.
    destruct (decide (k = "param_2")) as [->|H2].
    + rewrite !lookup_singleton_eq. by destruct (kwargs !! "param_2").
    + rewrite !lookup_singleton_ne by done.
      destruct (kwargs !! k) eqn:Hk; [|reflexivity].
      exfalso. assert (k ∈ dom kwargs) as Hin by (apply elem_of_dom; eauto).
      apply Hdom in Hin.
      rewrite elem_of_union, !elem_of_singleton in Hin. tauto.
Qed.

(** The theorem at [DummyPerturber(param_2=5)]. *)
Lemma dummy_kwargs_over_defaults_witness :
  get_config {| param_1 := 1; param_2 := 5 |}
  = {[ "param_2" := 5%Q ]} ∪ {[ "param_1" := 1%Q; "param_2" := 2%Q ]}.
Proof.
  apply (dummy_kwargs_over_defaults {[ "param_2" := 5%Q ]} {| param_1 := 1; param_2 := 5 |}).
  vm_compute. reflexivity.
Defined.

(** Built with one keyword, as a factory builds it, the dummy perturber
    reports that parameter as given and the other at its default; a keyword
    other than [param_1] and [param_2] is a [TypeError]. The class as the
    factories see it ([PerturbImage.DummyPerturber]) behaves the same. *)
Theorem dummy_single_keyword (key : string) (theta : Q) :
  get_config <$> init_kwargs {[ key := theta ]}
  = (if decide (key = "param_1" \/ key = "param_2")
     then Ok (<[key := theta]> {[ "param_1" := 1%Q; "param_2" := 2%Q ]})
     else Raise (TypeError "got an unexpected keyword argument"))
  /\ PerturbImage.get_config <$> PerturbImage.construct PerturbImage.DummyPerturber key theta
     = get_config <$> init_kwargs {[ key := theta ]}.
Proof.
  assert (get_config <$> init_kwargs {[ key := theta ]}
          = (if decide (key = "param_1" \/ key = "param_2")
             then Ok (<[key := theta]> {[ "param_1" := 1%Q; "param_2" := 2%Q ]})
             else Raise (TypeError "got an unexpected keyword argument"))) as Hcode.
  { unfold init_kwargs. rewrite dom_singleton_L.
    destruct (decide (key = "param_1" \/ key = "param_2")) as [[->| ->]|Hno].
    - rewrite decide_True by (apply singleton_subseteq_l, elem_of_union; left;
                               by apply elem_of_singleton).
      reflexivity.
    - rewrite decide_True by (apply singleton_subseteq_l, elem_of_union; right;
                               by apply elem_of_singleton).
      reflexivity.
    - rewrite decide_False; [reflexivity|].
      intros Hsub. apply singleton_subseteq_l in Hsub.
      rewrite elem_of_union, !elem_of_singleton in Hsub. tauto. }
  split; [exact Hcode|]. rewrite Hcode.
  unfold PerturbImage.construct, PerturbImage.DummyPerturber. simpl.
  destruct (decide (key = "param_1" \/ key = "param_2")) as [[->| ->]|Hno].
  - rewrite lookup_insert_eq. reflexivity.
  - rewrite lookup_insert_ne, lookup_singleton_eq by done. reflexivity.
  - rewrite lookup_insert_ne, lookup_singleton_ne by (intros <-; apply Hno; auto).
    reflexivity.
Qed.

End DummyPerturberFacts.
